(** * InvenTree: startup hooks and the RuleSet consistency tests

    A shallow embedding of
    - [InvenTree/users/tests.py]   (class [RuleSetModelTest]) and
    - [InvenTree/InvenTree/apps.py] (class [InvenTreeConfig]),
    together with the properties the specification states about them.

    Python values are modelled as the code uses them: [str] as [string],
    [list] as [list], an insertion-ordered [dict] as an association list
    whose subscript raises [KeyError], and statements that print, log,
    touch the database or raise as computations in a state-and-exception
    monad [Py W], where [W] is the part of the world the module touches. *)

From stdpp Require Import gmap strings list pretty.

Open Scope string_scope.
Open Scope list_scope.

(** ** Python runtime *)

(** The exceptions the two modules raise or catch. *)
Inductive exn : Type :=
  | KeyError (key : string)
  | NameError (name : string)
  | AssertionError (msg : string)
  | AppRegistryNotReady (msg : string)
  | DoesNotExist (msg : string)
  | MultipleObjectsReturned (msg : string)
  | Exception (msg : string).

(** [str(e)] *)
Definition str_exn (e : exn) : string :=
  match e with
  | KeyError key => "'" +:+ key +:+ "'"
  | NameError name => "name '" +:+ name +:+ "' is not defined"
  | AssertionError msg | AppRegistryNotReady msg | DoesNotExist msg
  | MultipleObjectsReturned msg | Exception msg => msg
  end.

(** A statement run in world [W]: the world after it, and either the
    exception it raised or its value. *)
Definition Py (W A : Type) : Type := W → W * (exn + A).

Definition ret {W A} (a : A) : Py W A := λ w, (w, inr a).

Definition raise {W A} (e : exn) : Py W A := λ w, (w, inl e).

Definition bind {W A B} (c : Py W A) (k : A → Py W B) : Py W B :=
  λ w, match c w with
       | (w', inr a) => k a w'
       | (w', inl e) => (w', inl e)
       end.

#[export] Instance py_ret {W} : MRet (Py W) := λ A, ret.
#[export] Instance py_bind {W} : MBind (Py W) := λ A B k c, bind c k.

(** [try: c  except <the exceptions h handles>: h e]; an exception [h]
    does not handle goes on. *)
Definition try_except {W A} (c : Py W A) (h : exn → option (Py W A)) : Py W A :=
  λ w, match c w with
       | (w', inr a) => (w', inr a)
       | (w', inl e) => match h e with
                        | Some handler => handler w'
                        | None => (w', inl e)
                        end
       end.

(** [if cond: body] without an [else]. *)
Definition when {W} (cond : bool) (body : Py W unit) : Py W unit :=
  if cond then body else ret tt.

(** [for x in l: body x]. *)
Fixpoint for_ {W A} (l : list A) (body : A → Py W unit) : Py W unit :=
  match l with
  | [] => ret tt
  | x :: l' => body x ;; for_ l' body
  end.

(** A [for] loop that updates local variables [s]. *)
Fixpoint for_with {W A S} (l : list A) (body : S → A → Py W S) (s : S) : Py W S :=
  match l with
  | [] => ret s
  | x :: l' => s' ← body s x; for_with l' body s'
  end.

(** [[x for x in l if cond x]] where evaluating [cond] may raise. *)
Fixpoint comprehension_if {W A} (cond : A → Py W bool) (l : list A) : Py W (list A) :=
  match l with
  | [] => ret []
  | x :: l' =>
      b ← cond x;
      rest ← comprehension_if cond l';
      ret (if b : bool then x :: rest else rest)
  end.

(** Worlds with a standard output. *)
Class Stdout (W : Type) := put_line : string → W → W.

Definition print {W} `{Stdout W} (line : string) : Py W unit :=
  λ w, (put_line line w, inr tt).

(** [print(a, b)]: the two arguments separated by one space. *)
Definition print2 {W} `{Stdout W} (a b : string) : Py W unit :=
  print (a +:+ " " +:+ b).

(** [a > b] on the lengths and counters of the code. *)
#[export] Instance nat_gt_dec (a b : nat) : Decision (a > b) := decide (b < a).

(** [self.assertEqual(first, second)] on integers. *)
Definition assertEqual {W} (first second : nat) : Py W unit :=
  if decide (first = second) then ret tt
  else raise (AssertionError (pretty first +:+ " != " +:+ pretty second)).

(** *** Dictionaries

    A [dict] keeps its items in insertion order; [d[k]] raises [KeyError]
    on a key that is not there, [d.get(k, default)] does not. *)
Module PyDict.

Definition dict (V : Type) : Type := list (string * V).

Definition keys {V} (d : dict V) : list string := d.*1.

Fixpoint lookup {V} (d : dict V) (k : string) : option V :=
  match d with
  | [] => None
  | (k', v) :: d' => if decide (k' = k) then Some v else lookup d' k
  end.

(** [d[k]] *)
Definition subscript {W V} (d : dict V) (k : string) : Py W V :=
  match lookup d k with
  | Some v => ret v
  | None => raise (KeyError k)
  end.

(** [d.get(k, default)] *)
Definition get {V} (d : dict V) (k : string) (default : V) : V :=
  match lookup d k with
  | Some v => v
  | None => default
  end.

(** [d[k] = v]: a new key goes last, a known key keeps its place. *)
Fixpoint set {V} (d : dict V) (k : string) (v : V) : dict V :=
  match d with
  | [] => [(k, v)]
  | (k', v') :: d' => if decide (k' = k) then (k, v) :: d' else (k', v') :: set d' k v
  end.

(** The display [{k1: v1, k2: v2, ...}]. *)
Definition literal {V} (items : list (string * V)) : dict V :=
  foldl (λ d kv, set d kv.1 kv.2) [] items.

End PyDict.

(** ** users/tests.py *)

Module RuleSetModelTest.
Import PyDict.

(** The test run prints to standard output and nothing else. *)
#[export] Instance stdout_lines : Stdout (list string) := λ line out, out ++ [line].

(** A registered Django model, as far as the test reads it:
    [model.objects.model._meta.db_table]. *)
Record Model := { db_table : string }.

Section ruleset.
(** [RuleSet.RULESET_NAMES] and [RuleSet.RULESET_MODELS] are class
    constants of [users.models.RuleSet]: the canonical group names, and
    the registry from group name to the table names it governs. *)
Variable RULESET_NAMES : list string.
Variable RULESET_MODELS : dict (list string).

(** [missing = [name for name in RuleSet.RULESET_NAMES if name not in keys]] *)
Definition missing : list string :=
  let keys := keys RULESET_MODELS in
  filter (λ name, name ∉ keys) RULESET_NAMES.

(** [extra = [name for name in keys if name not in RuleSet.RULESET_NAMES]] *)
Definition extra : list string :=
  let keys := keys RULESET_MODELS in
  filter (λ name, name ∉ RULESET_NAMES) keys.

(** [empty = [key for key in keys if len(RuleSet.RULESET_MODELS[key]) == 0]];
    the subscript is the one step of the test that could raise. *)
Definition empty : Py (list string) (list string) :=
  let keys := keys RULESET_MODELS in
  comprehension_if
    (λ key, models ← subscript RULESET_MODELS key; ret (bool_decide (length models = 0)))
    keys.

(** [test_ruleset_models]: the three lists are computed and reported
    first, the three assertions come last. *)
Definition test_ruleset_models : Py (list string) unit :=
  when (bool_decide (length missing > 0))
    (print "The following rulesets do not have models assigned:" ;;
     for_ missing (λ m, print2 "-" m)) ;;
  when (bool_decide (length extra > 0))
    (print "The following rulesets have been improperly added to RULESET_MODELS:" ;;
     for_ extra (λ e, print2 "-" e)) ;;
  empty ← empty;
  when (bool_decide (length empty > 0))
    (print "The following rulesets have empty entries in RULESET_MODELS:" ;;
     for_ empty (λ e, print2 "-" e)) ;;
  assertEqual (length missing) 0 ;;
  assertEqual (length extra) 0 ;;
  assertEqual (length empty) 0.

(** [available_tables]: one [append] per model. *)
Definition available_tables (available_models : list Model) : list string :=
  foldl (λ tables model, tables ++ [db_table model]) [] available_models.

(** The body of the inner loop, [for m in models]; the local variables
    it updates are [(errors, assigned_models)]. *)
Definition check_model (available_tables : list string)
  : nat * list string → string → Py (list string) (nat * list string) :=
  λ '(errors, assigned_models) m,
    let assigned_models := assigned_models ++ [m] in
    if decide (m ∉ available_tables) then
      print (m +:+ " is not a valid database table") ;;
      ret (errors + 1, assigned_models)
    else ret (errors, assigned_models).

(** The loop [for key in RuleSet.RULESET_MODELS.keys()]. *)
Definition check_models (available_tables : list string)
  : Py (list string) (nat * list string) :=
  for_with (keys RULESET_MODELS)
    (λ st key,
       models ← subscript RULESET_MODELS key;
       for_with models (check_model available_tables) st)
    (0, []).

(** The loop [for model in available_tables] that fills [missing_models]. *)
Definition missing_models (available_tables assigned_models : list string) : list string :=
  foldl (λ missing_models model,
           if decide (model ∉ assigned_models) then missing_models ++ [model]
           else missing_models)
    [] available_tables.

(** [test_model_names]; [available_models] is what [apps.get_models()]
    returns. The assertion on [errors] stands between the loop and the
    search for uncovered tables. *)
Definition test_model_names (available_models : list Model) : Py (list string) unit :=
  let available_tables := available_tables available_models in
  '(errors, assigned_models) ← check_models available_tables;
  assertEqual errors 0 ;;
  let missing_models := missing_models available_tables assigned_models in
  when (bool_decide (length missing_models > 0))
    (print "WARNING: The following database models are not covered by the define RuleSet permissions:" ;;
     for_ missing_models (λ m, print2 "-" m)).

End ruleset.

End RuleSetModelTest.

(** ** InvenTree/apps.py *)

Module InvenTreeConfig.
Import PyDict.

(** A setting read from the environment or the configuration file. *)
Inductive pyval : Type :=
  | PyNone
  | PyBool (b : bool)
  | PyInt (z : Z)
  | PyStr (s : string).

(** Truth value testing. *)
Definition truthy (v : pyval) : bool :=
  match v with
  | PyNone => false
  | PyBool b => b
  | PyInt z => bool_decide (z ≠ 0%Z)
  | PyStr s => bool_decide (s ≠ "")
  end.

(** [a and b] yields [a] when [a] is falsy, else [b]. *)
Definition py_and (a b : pyval) : pyval := if truthy a then b else a.

(** [django_q.models.Schedule], the columns the module sets. *)
Inductive ScheduleType : Type := DAILY | MINUTES.

Record Schedule := {
  pk : nat;
  func : string;
  schedule_type : ScheduleType;
  minutes : option nat;
}.

#[export] Instance ScheduleType_eq_dec : EqDecision ScheduleType.
Proof. solve_decision. Defined.

#[export] Instance Schedule_eq_dec : EqDecision Schedule.
Proof. solve_decision. Defined.

(** [djmoney.contrib.exchange.models.ExchangeBackend]. *)
Record ExchangeBackend := {
  backend_name : string;
  backend_last_update : option nat;
  backend_base_currency : string;
}.

(** A row of the user model; [str(user)] is its user name. *)
Record User := {
  username : string;
  email : string;
  password : string;
}.

(** The user model [get_user_model()] returns, as far as the module uses
    it: [user.objects.create_user(username, email, password)] on the user
    table. *)
Record UserModel := {
  objects_create_user :
    pyval → pyval → pyval → list User → list User * (exn + User);
}.

Inductive Level : Type := INFO | WARNING | ERROR.

(** The methods of [InvenTreeConfig], as entries of the call record. *)
Inductive Method : Type :=
  | Ready
  | Remove_obsolete_tasks
  | Start_background_tasks
  | Update_exchange_rates
  | Add_user_on_startup.

(** What the startup hooks read and write: three database tables, the
    [inventree] logger and standard output. [calls] is no state of the
    program: it records the methods entered so far, oldest first, so that
    the order in which [ready] runs them can be stated. *)
Record World := {
  schedules : list Schedule;
  exchange_backends : list ExchangeBackend;
  users : list User;
  log : list (Level * string);
  stdout : list string;
  calls : list Method;
}.

Definition set_schedules (f : list Schedule → list Schedule) (w : World) : World :=
  {| schedules := f (schedules w); exchange_backends := exchange_backends w;
     users := users w; log := log w; stdout := stdout w; calls := calls w |}.

Definition set_exchange_backends (bs : list ExchangeBackend) (w : World) : World :=
  {| schedules := schedules w; exchange_backends := bs;
     users := users w; log := log w; stdout := stdout w; calls := calls w |}.

Definition set_users (us : list User) (w : World) : World :=
  {| schedules := schedules w; exchange_backends := exchange_backends w;
     users := us; log := log w; stdout := stdout w; calls := calls w |}.

Definition add_log (lvl : Level) (msg : string) (w : World) : World :=
  {| schedules := schedules w; exchange_backends := exchange_backends w;
     users := users w; log := log w ++ [(lvl, msg)]; stdout := stdout w;
     calls := calls w |}.

Definition add_call (m : Method) (w : World) : World :=
  {| schedules := schedules w; exchange_backends := exchange_backends w;
     users := users w; log := log w; stdout := stdout w;
     calls := calls w ++ [m] |}.

#[export] Instance stdout_world : Stdout World := λ line w,
  {| schedules := schedules w; exchange_backends := exchange_backends w;
     users := users w; log := log w; stdout := stdout w ++ [line];
     calls := calls w |}.

Definition logger (lvl : Level) (msg : string) : Py World unit :=
  λ w, (add_log lvl msg w, inr tt).

(** Entering a method. *)
Definition enter (m : Method) : Py World unit := λ w, (add_call m w, inr tt).

(** [Schedule.objects.filter(func__in=funcs).delete()] *)
Definition delete_schedules_func_in (funcs : list string) : Py World unit :=
  λ w, (set_schedules (filter (λ s, func s ∉ funcs)) w, inr tt).

(** [ExchangeBackend.objects.get(name=n)] *)
Definition get_exchange_backend (n : string) : Py World ExchangeBackend :=
  λ w, match filter (λ b, backend_name b = n) (exchange_backends w) with
       | [] => (w, inl (DoesNotExist "ExchangeBackend matching query does not exist."))
       | [b] => (w, inr b)
       | _ => (w, inl (MultipleObjectsReturned "get() returned more than one ExchangeBackend"))
       end.

Definition is_AppRegistryNotReady {A} (handler : A) (e : exn) : option A :=
  match e with AppRegistryNotReady _ => Some handler | _ => None end.

Section app.
(** What the module takes from the rest of the application. *)

(** [InvenTree.ready] *)
Variable canAppAccessDatabase : bool.
Variable isInTestMode : bool.
(** Whether importing a module that declares models succeeds; it raises
    [AppRegistryNotReady] otherwise. *)
Variable importable : string → bool.
(** [InvenTree.tasks.schedule_task(taskname, schedule_type=, minutes=)] *)
Variable schedule_task :
  string → ScheduleType → option nat → list Schedule → list Schedule.
(** [InvenTree.tasks.update_exchange_rates()] *)
Variable tasks_update_exchange_rates :
  list ExchangeBackend → list ExchangeBackend * option exn.
(** [common.settings.currency_code_default()] *)
Variable currency_code_default : string.
(** [InvenTree.config.get_setting(environment_var, backup_val)] *)
Variable get_setting : string → pyval → pyval.
(** [django.conf.settings.CONFIG] *)
Variable CONFIG : dict pyval.
(** [django.contrib.auth.get_user_model()]: the user model, or the
    exception the call raises ([AppRegistryNotReady] while the registry is
    not ready). *)
Variable get_user_model : exn + UserModel.

(** [from <module> import <names>] inside a method. *)
Definition import_module (module : string) : Py World unit :=
  if importable module then ret tt
  else raise (AppRegistryNotReady "Apps aren't loaded yet.").

(** [remove_obsolete_tasks]: the [return] of the [except] clause ends the
    method before the query. *)
Definition remove_obsolete_tasks : Py World unit :=
  enter Remove_obsolete_tasks ;;
  let obsolete := [
    "InvenTree.tasks.delete_expired_sessions";
    "stock.tasks.delete_old_stock_items"
  ] in
  imported ← try_except (import_module "django_q.models" ;; ret true)
               (is_AppRegistryNotReady (ret false));
  if imported : bool then
    (* Remove any existing obsolete tasks *)
    delete_schedules_func_in obsolete
  else ret tt.

(** [InvenTree.tasks.schedule_task(...)] on the schedule table. *)
Definition call_schedule_task (taskname : string) (ty : ScheduleType)
    (mins : option nat) : Py World unit :=
  λ w, (set_schedules (schedule_task taskname ty mins) w, inr tt).

Definition start_background_tasks : Py World unit :=
  enter Start_background_tasks ;;
  imported ← try_except (import_module "django_q.models" ;; ret true)
               (is_AppRegistryNotReady (ret false));
  if imported : bool then
    logger INFO "Starting background tasks..." ;;
    call_schedule_task "InvenTree.tasks.delete_successful_tasks" DAILY None ;;
    call_schedule_task "InvenTree.tasks.check_for_updates" DAILY None ;;
    call_schedule_task "InvenTree.tasks.heartbeat" MINUTES (Some 15) ;;
    call_schedule_task "InvenTree.tasks.update_exchange_rates" DAILY None ;;
    call_schedule_task "InvenTree.tasks.delete_old_error_logs" DAILY None ;;
    call_schedule_task "common.tasks.delete_old_notifications" DAILY None
  else ret tt.

(** [update_exchange_rates()], the task: it may raise after changing
    the backends. *)
Definition call_update_exchange_rates : Py World unit :=
  λ w, match tasks_update_exchange_rates (exchange_backends w) with
       | (bs, None) => (set_exchange_backends bs w, inr tt)
       | (bs, Some e) => (set_exchange_backends bs w, inl e)
       end.

Definition update_exchange_rates : Py World unit :=
  enter Update_exchange_rates ;;
  imported ← try_except
               (import_module "djmoney.contrib.exchange.models" ;;
                import_module "InvenTree.tasks" ;;
                import_module "common.settings" ;;
                ret true)
               (is_AppRegistryNotReady (ret false));
  (* after a failed import the name [currency_code_default] is unbound *)
  base_currency ← (if imported : bool then ret currency_code_default
                   else raise (NameError "currency_code_default"));
  (* [None]: the bare [except] returned *)
  update ← try_except
             (backend ← get_exchange_backend "InvenTreeExchange";
              let last_update := backend_last_update backend in
              update ← (if decide (last_update = None) then
                          logger INFO "Exchange backend has never been updated" ;;
                          ret true
                        else ret false);
              update ← (if negb (bool_decide (base_currency = backend_base_currency backend)) then
                          logger INFO ("Base currency changed from " +:+ backend_base_currency backend
                                       +:+ " to " +:+ base_currency) ;;
                          ret true
                        else ret update);
              ret (Some update))
             (λ e, match e with
                   | DoesNotExist _ =>
                       Some (logger INFO "Exchange backend not found - updating" ;;
                             ret (Some true))
                   | _ => Some (ret None)
                   end);
  match update with
  | None => ret tt
  | Some update =>
      if update : bool then
        try_except call_update_exchange_rates
          (λ e, Some (logger ERROR ("Error updating exchange rates: " +:+ str_exn e)))
      else ret tt
  end.

(** [get_user_model()] *)
Definition call_get_user_model : Py World UserModel :=
  λ w, (w, get_user_model).

(** [user.objects.create_user(add_user, add_email, add_password)] *)
Definition call_create_user (user : UserModel) (u e p : pyval) : Py World User :=
  λ w, match objects_create_user user u e p (users w) with
       | (us, r) => (set_users us w, r)
       end.

(** [add_user_on_startup]: [get_user_model()] is called after the test of
    the settings and before the [try], so what it raises leaves the method;
    what [create_user] raises is printed. *)
Definition add_user_on_startup : Py World unit :=
  enter Add_user_on_startup ;;
  (* get values *)
  let add_user := get_setting "INVENTREE_SET_USER" (get CONFIG "set_user" (PyBool false)) in
  let add_email := get_setting "INVENTREE_SET_EMAIL" (get CONFIG "set_email" (PyBool false)) in
  let add_password :=
    get_setting "INVENTREE_SET_PASSWORD" (get CONFIG "set_password" (PyBool false)) in
  (* check if all values are present *)
  if negb (truthy (py_and (py_and add_user add_email) add_password)) then
    logger WARNING "Not all required settings for adding a user on startup are present:
INVENTREE_SET_USER, INVENTREE_SET_EMAIL, INVENTREE_SET_PASSWORD"
  else
    (* create user *)
    user ← call_get_user_model;
    try_except
      (new_user ← call_create_user user add_user add_email add_password;
       logger INFO ("User " +:+ username new_user +:+ " was created!"))
      (λ _e, Some (print (str_exn _e))).

Definition ready : Py World unit :=
  enter Ready ;;
  if canAppAccessDatabase then
    remove_obsolete_tasks ;;
    start_background_tasks ;;
    when (negb isInTestMode) update_exchange_rates ;;
    add_user_on_startup
  else ret tt.

End app.

End InvenTreeConfig.

(** ** The consistency checker of the specification, in the terms of the tests *)

Module Checker.
Import PyDict RuleSetModelTest.

(** Modelled from the spec: [resourcesFor(group)], the lookup of the
    RuleSet registry. The registry object [RuleSet.RULESET_MODELS] is
    declared in users/models.py, which is not among the sources; the tests
    read it as a dictionary, through [keys()] and [RULESET_MODELS[key]],
    and only at keys it has. *)
Definition resourcesFor {W} (registry : dict (list string)) (group : string)
  : Py W (list string) :=
  subscript registry group.

(** Modelled from the spec: [UnknownGroupError], the error of asking the
    registry for a group it does not declare; on the dictionary of the
    tests the failing subscript is a [KeyError]. *)
Definition UnknownGroupError (group : string) : exn := KeyError group.

(** [registry.keys()] as a set. *)
Definition key_set (registry : dict (list string)) : gset string :=
  list_to_set (keys registry).

(** The groups whose entry is the empty list. *)
Definition empty_groups (registry : dict (list string)) : list string :=
  filter (λ key, lookup registry key = Some []) (keys registry).

(** Every resource the registry declares, group after group, as the
    loop of [test_model_names] meets them. *)
Definition declared_resources (registry : dict (list string)) : list string :=
  key ← keys registry; get registry key [].

(** The declared resources that are no live table, in the same order. *)
Definition invalidRefs (liveResources : list string) (registry : dict (list string))
  : list string :=
  filter (λ r, r ∉ liveResources) (declared_resources registry).


(** The line [test_model_names] prints for an invalid reference. *)
Definition invalid_line (r : string) : string := r +:+ " is not a valid database table".

(** The live tables no group covers. *)
Definition uncovered (liveResources : list string) (registry : dict (list string))
  : list string :=
  filter (λ t, t ∉ declared_resources registry) liveResources.

(** What a test prints for a list it found non-empty: a heading, then
    the items. *)
Definition report (heading : string) (l : list string) : list string :=
  match l with
  | [] => []
  | _ => heading :: ((λ m, "- " +:+ m) <$> l)
  end.

(** The lines [test_ruleset_models] prints. *)
Definition ruleset_report (RULESET_NAMES : list string) (RULESET_MODELS : dict (list string))
  : list string :=
  report "The following rulesets do not have models assigned:"
    (missing RULESET_NAMES RULESET_MODELS)
  ++ report "The following rulesets have been improperly added to RULESET_MODELS:"
       (extra RULESET_NAMES RULESET_MODELS)
  ++ report "The following rulesets have empty entries in RULESET_MODELS:"
       (empty_groups RULESET_MODELS).

(** What the three assertions leave: the first that fails raises. *)
Definition ruleset_verdict (RULESET_NAMES : list string) (RULESET_MODELS : dict (list string))
  : exn + unit :=
  if decide (missing RULESET_NAMES RULESET_MODELS = []) then
    if decide (extra RULESET_NAMES RULESET_MODELS = []) then
      if decide (empty_groups RULESET_MODELS = []) then inr tt
      else inl (AssertionError (pretty (length (empty_groups RULESET_MODELS)) +:+ " != 0"))
    else inl (AssertionError (pretty (length (extra RULESET_NAMES RULESET_MODELS)) +:+ " != 0"))
  else inl (AssertionError (pretty (length (missing RULESET_NAMES RULESET_MODELS)) +:+ " != 0")).

(** What [test_model_names] prints and leaves: the invalid references
    and a failed assertion when there are any, else the warning about the
    tables no ruleset covers. *)
Definition model_names_report (liveResources : list string) (registry : dict (list string))
  : list string :=
  if decide (invalidRefs liveResources registry = []) then
    report "WARNING: The following database models are not covered by the define RuleSet permissions:"
      (uncovered liveResources registry)
  else invalid_line <$> invalidRefs liveResources registry.

Definition model_names_verdict (liveResources : list string) (registry : dict (list string))
  : exn + unit :=
  if decide (invalidRefs liveResources registry = []) then inr tt
  else inl (AssertionError (pretty (length (invalidRefs liveResources registry)) +:+ " != 0")).

(** A test passes when it returns without raising. *)
Definition passes {W} (r : W * (exn + unit)) : Prop := r.2 = inr tt.

Definition fails {W} (r : W * (exn + unit)) : Prop := ∃ msg, r.2 = inl (AssertionError msg).

End Checker.

(** ** The startup hooks, in the terms of their claims *)

Module Startup.
Import PyDict InvenTreeConfig.

(** A statement keeps the component [f] of the world: whatever it
    returns or raises, [f] reads the same afterwards. *)
Definition keeps {A B} (f : World → B) (c : Py World A) : Prop :=
  ∀ w, f (c w).1 = f w.

(** The function names [remove_obsolete_tasks] looks for. *)
Definition obsolete : list string :=
  [ "InvenTree.tasks.delete_expired_sessions";
    "stock.tasks.delete_old_stock_items" ].

(** The three settings [add_user_on_startup] resolves. *)
Section settings.
Variable get_setting : string → pyval → pyval.
Variable CONFIG : dict pyval.

Definition set_user : pyval :=
  get_setting "INVENTREE_SET_USER" (get CONFIG "set_user" (PyBool false)).
Definition set_email : pyval :=
  get_setting "INVENTREE_SET_EMAIL" (get CONFIG "set_email" (PyBool false)).
Definition set_password : pyval :=
  get_setting "INVENTREE_SET_PASSWORD" (get CONFIG "set_password" (PyBool false)).

Definition all_settings_present : bool :=
  truthy set_user && truthy set_email && truthy set_password.
End settings.

(** The warning of [add_user_on_startup]. *)
Definition settings_warning : string :=
  "Not all required settings for adding a user on startup are present:
INVENTREE_SET_USER, INVENTREE_SET_EMAIL, INVENTREE_SET_PASSWORD".

(** The six calls of [start_background_tasks] on the schedule table. *)
Definition background_tasks
    (schedule_task : string → ScheduleType → option nat → list Schedule → list Schedule)
    (table : list Schedule) : list Schedule :=
  schedule_task "common.tasks.delete_old_notifications" DAILY None
    (schedule_task "InvenTree.tasks.delete_old_error_logs" DAILY None
       (schedule_task "InvenTree.tasks.update_exchange_rates" DAILY None
          (schedule_task "InvenTree.tasks.heartbeat" MINUTES (Some 15)
             (schedule_task "InvenTree.tasks.check_for_updates" DAILY None
                (schedule_task "InvenTree.tasks.delete_successful_tasks" DAILY None table))))).

End Startup.

(** ** Sample inputs *)

Module Examples.
Import PyDict RuleSetModelTest InvenTreeConfig.

(** A registry with one group that governs a dangling table and one
    group that governs nothing. *)
Definition registry : dict (list string) :=
  literal [("part", ["part_part"; "part_legacy"]); ("stock", [])].

Definition names : list string := ["part"; "stock"; "build"].

Definition available_models : list Model :=
  [ {| db_table := "part_part" |}; {| db_table := "stock_stockitem" |} ].

(** A registry and a schema with nothing to report but an uncovered table. *)
Definition sound_registry : dict (list string) :=
  literal [("part", ["part_part"]); ("stock", ["stock_stockitem"])].


Definition old_task : Schedule :=
  {| pk := 1; func := "stock.tasks.delete_old_stock_items";
     schedule_type := DAILY; minutes := None |}.

Definition heartbeat : Schedule :=
  {| pk := 2; func := "InvenTree.tasks.heartbeat";
     schedule_type := MINUTES; minutes := Some 15 |}.

(** A database with an obsolete task and a current one, before startup. *)
Definition world : World :=
  {| schedules := [old_task; heartbeat]; exchange_backends := []; users := [];
     log := []; stdout := []; calls := [] |}.

(** No variable is set in the environment: the backup value stands. *)
Definition get_setting (environment_var : string) (backup_val : pyval) : pyval :=
  backup_val.

(** A configuration file that names a user and an e-mail but no password. *)
Definition CONFIG : dict pyval :=
  literal [("set_user", PyStr "admin"); ("set_email", PyStr "admin@example.org")].

(** A configuration file with all three. *)
Definition full_CONFIG : dict pyval :=
  literal [("set_user", PyStr "admin"); ("set_email", PyStr "admin@example.org");
           ("set_password", PyStr "secret")].

(** A user manager that stores the row it is given. *)
Definition create_user (u e p : pyval) (table : list User)
  : list User * (exn + User) :=
  match u, e, p with
  | PyStr u, PyStr e, PyStr p =>
      let row := {| username := u; email := e; password := p |} in
      (table ++ [row], inr row)
  | _, _, _ => (table, inl (Exception "The given username must be set"))
  end.

(** A scheduler that adds the task unless one of that function is there. *)
Definition schedule_task (taskname : string) (ty : ScheduleType) (mins : option nat)
    (table : list Schedule) : list Schedule :=
  if decide (taskname ∈ func <$> table) then table
  else table ++ [ {| pk := S (length table); func := taskname;
                     schedule_type := ty; minutes := mins |} ].

(** An exchange-rate update that finds nothing to change. *)
Definition update_rates (table : list ExchangeBackend)
  : list ExchangeBackend * option exn :=
  (table, None).

End Examples.

(** ** The exchange-rate update, in the terms of its properties *)

Module Rates.
Import PyDict InvenTreeConfig.

(** The three imports of [update_exchange_rates] all succeed. *)
Definition rates_importable (importable : string → bool) : bool :=
  importable "djmoney.contrib.exchange.models"
  && importable "InvenTree.tasks"
  && importable "common.settings".

(** The rows [ExchangeBackend.objects.get(name='InvenTreeExchange')] chooses from. *)
Definition inventree_backends (w : World) : list ExchangeBackend :=
  filter (λ b, backend_name b = "InvenTreeExchange") (exchange_backends w).

(** The world after the guarded call of the task: the backends are what the
    task left, and an exception of the task has become an [ERROR] record. *)
Definition after_task
    (tasks_update_exchange_rates : list ExchangeBackend → list ExchangeBackend * option exn)
    (w : World) : World :=
  match tasks_update_exchange_rates (exchange_backends w) with
  | (bs, None) => set_exchange_backends bs w
  | (bs, Some e) =>
      add_log ERROR ("Error updating exchange rates: " +:+ str_exn e)
        (set_exchange_backends bs w)
  end.

(** The one backend is up to date for [update_exchange_rates]: it has been
    updated at some time and its base currency is the default one. *)
Definition up_to_date (currency_code_default : string) (b : ExchangeBackend) : bool :=
  bool_decide (backend_last_update b ≠ None)
  && bool_decide (currency_code_default = backend_base_currency b).

End Rates.

(** ** The headings the tests print *)

Module Headings.

(** Above the names of [missing] in [test_ruleset_models]. *)
Definition missing_heading : string :=
  "The following rulesets do not have models assigned:".

(** Above the names of [extra]. *)
Definition extra_heading : string :=
  "The following rulesets have been improperly added to RULESET_MODELS:".

(** Above the names of [empty]. *)
Definition empty_heading : string :=
  "The following rulesets have empty entries in RULESET_MODELS:".


End Headings.

(** ** Sample databases for the exchange-rate update *)

Module Samples.
Import PyDict InvenTreeConfig.

(** A backend updated at some time, in the default currency. *)
Definition current_backend : ExchangeBackend :=
  {| backend_name := "InvenTreeExchange"; backend_last_update := Some 1;
     backend_base_currency := "USD" |}.

(** A backend of another application. *)
Definition other_backend : ExchangeBackend :=
  {| backend_name := "OpenExchangeRates"; backend_last_update := None;
     backend_base_currency := "EUR" |}.

(** A backend that was never updated. *)
Definition fresh_backend : ExchangeBackend :=
  {| backend_name := "InvenTreeExchange"; backend_last_update := None;
     backend_base_currency := "USD" |}.

Definition world_with (bs : list ExchangeBackend) : World :=
  {| schedules := []; exchange_backends := bs; users := []; log := [];
     stdout := []; calls := [] |}.

(** An exchange-rate task that fails without changing a row. *)
Definition failing_task (table : list ExchangeBackend)
  : list ExchangeBackend * option exn :=
  (table, Some (Exception "Connection refused")).

(** A user manager that refuses every row. *)
Definition failing_create_user (u e p : pyval) (table : list User)
  : list User * (exn + User) :=
  (table, inl (Exception "UNIQUE constraint failed: auth_user.username")).

(** A user model whose manager stores the row it is given. *)
Definition user_model : UserModel :=
  {| objects_create_user := Examples.create_user |}.

(** A user model whose manager refuses every row. *)
Definition failing_user_model : UserModel :=
  {| objects_create_user := failing_create_user |}.

(** What [get_user_model()] raises while the registry is not ready. *)
Definition models_not_loaded : exn :=
  AppRegistryNotReady "Models aren't loaded yet.".

End Samples.

(** ** Properties of the Python runtime *)

Import PyDict RuleSetModelTest Checker InvenTreeConfig Startup Rates Headings.

Section runtime_facts.
Context {W : Type}.

Lemma bind_ret_l {A B} (a : A) (k : A → Py W B) (w : W) :
  (ret a ≫= k) w = k a w.
Proof. reflexivity. Qed.

Lemma bind_ok {A B} (c : Py W A) (k : A → Py W B) (w w' : W) (a : A) :
  c w = (w', inr a) → (c ≫= k) w = k a w'.
Proof. intros Hc. unfold mbind, py_bind, bind. by rewrite Hc. Qed.

Lemma bind_raise {A B} (c : Py W A) (k : A → Py W B) (w w' : W) (e : exn) :
  c w = (w', inl e) → (c ≫= k) w = (w', inl e).
Proof. intros Hc. unfold mbind, py_bind, bind. by rewrite Hc. Qed.

Lemma assertEqual_ok (n : nat) (w : W) : assertEqual n n w = (w, inr tt).
Proof. unfold assertEqual. by rewrite decide_True. Qed.

Lemma assertEqual_raise (n m : nat) (w : W) :
  n ≠ m → assertEqual n m w = (w, inl (AssertionError (pretty n +:+ " != " +:+ pretty m))).
Proof. intros Hne. unfold assertEqual. by rewrite decide_False. Qed.

Lemma assertEqual_length_0 {A} (l : list A) (w : W) :
  assertEqual (length l) 0 w =
    (w, if decide (l = []) then inr tt
        else inl (AssertionError (pretty (length l) +:+ " != 0"))).
Proof.
  destruct l as [|x l]; [apply assertEqual_ok|].
  rewrite decide_False by done. by apply assertEqual_raise.
Qed.

End runtime_facts.

Lemma for_print2 (a : string) (l : list string) (out : list string) :
  for_ l (λ m, print2 a m) out = (out ++ ((λ m, a +:+ " " +:+ m) <$> l), inr tt).
Proof.
  revert out. induction l as [|x l IH]; intros out; csimpl.
  - by rewrite app_nil_r.
  - erewrite bind_ok by reflexivity. rewrite IH.
    unfold put_line, RuleSetModelTest.stdout_lines. by rewrite <- app_assoc.
Qed.

Lemma when_report (heading : string) (l : list string) (out : list string) :
  when (bool_decide (length l > 0)) (print heading ;; for_ l (λ m, print2 "-" m)) out
  = (out ++ report heading l, inr tt).
Proof.
  destruct l as [|x l].
  - simpl. by rewrite app_nil_r.
  - rewrite bool_decide_true by (simpl; lia). unfold when.
    erewrite bind_ok by reflexivity. rewrite for_print2.
    unfold put_line, RuleSetModelTest.stdout_lines. by rewrite <- app_assoc.
Qed.

(** ** Properties of dictionaries *)

Section dict_facts.
Context {V : Type}.
Implicit Types (d : dict V) (k : string) (v : V).

Lemma lookup_is_Some d k : is_Some (lookup d k) ↔ k ∈ keys d.
Proof.
  unfold keys. induction d as [|[k' v'] d IH]; csimpl.
  - split; [by intros [? ?] | by intros ?%elem_of_nil].
  - rewrite elem_of_cons. destruct (decide (k' = k)) as [->|Hne].
    + split; [by left | by eauto].
    + rewrite IH. intuition congruence.
Qed.

Lemma lookup_None d k : lookup d k = None ↔ k ∉ keys d.
Proof. rewrite <- lookup_is_Some, eq_None_not_Some. done. Qed.

Lemma lookup_Some_elem_of d k v : lookup d k = Some v → (k, v) ∈ d.
Proof.
  induction d as [|[k' v'] d IH]; simpl; [done|].
  destruct (decide (k' = k)) as [->|Hne].
  - intros [= ->]. by left.
  - intros H. right. by apply IH.
Qed.

Lemma subscript_Some {W} d k v (w : W) :
  lookup d k = Some v → subscript d k w = (w, inr v).
Proof. intros H. unfold subscript. by rewrite H. Qed.

Lemma subscript_None {W} d k (w : W) :
  lookup d k = None → subscript d k w = (w, inl (KeyError k)).
Proof. intros H. unfold subscript. by rewrite H. Qed.

Lemma get_Some d k v default : lookup d k = Some v → get d k default = v.
Proof. intros H. unfold get. by rewrite H. Qed.

(** Assignment keeps the keys apart, so a display has no key twice. *)
Lemma keys_set d k v :
  keys (set d k v) = if decide (k ∈ keys d) then keys d else keys d ++ [k].
Proof.
  unfold keys. induction d as [|[k' v'] d IH]; csimpl; [done|].
  destruct (decide (k' = k)) as [->|Hne]; csimpl.
  - rewrite decide_True; [done | by left].
  - rewrite IH. destruct (decide (k ∈ d.*1)) as [Hin|Hnin].
    + rewrite decide_True; [done | by right].
    + rewrite decide_False; [done|]. rewrite elem_of_cons. intuition congruence.
Qed.

Lemma NoDup_keys_set d k v : NoDup (keys d) → NoDup (keys (set d k v)).
Proof.
  intros Hd. rewrite keys_set. case_decide; [done|].
  apply NoDup_app. split_and!; [done | | apply NoDup_singleton].
  intros x Hx ->%list_elem_of_singleton. done.
Qed.

Lemma NoDup_keys_foldl_set (items : list (string * V)) d :
  NoDup (keys d) → NoDup (keys (foldl (λ d kv, set d kv.1 kv.2) d items)).
Proof.
  revert d. induction items as [|[k v] items IH]; intros d Hd; simpl; [done|].
  apply IH. by apply NoDup_keys_set.
Qed.

Lemma NoDup_keys_literal (items : list (string * V)) : NoDup (keys (literal items)).
Proof. apply NoDup_keys_foldl_set. constructor. Qed.

End dict_facts.

(** ** Properties of users/tests.py *)

Section ruleset_facts.
Variable RULESET_NAMES : list string.
Variable RULESET_MODELS : dict (list string).

Lemma comprehension_empty (l out : list string) :
  (∀ key, key ∈ l → key ∈ keys RULESET_MODELS) →
  comprehension_if
    (λ key, models ← subscript RULESET_MODELS key; ret (bool_decide (length models = 0)))
    l out
  = (out, inr (filter (λ key, lookup RULESET_MODELS key = Some []) l)).
Proof.
  induction l as [|key l IH]; intros Hl; simpl; [done|].
  destruct (proj2 (lookup_is_Some RULESET_MODELS key)) as [models Hm].
  { apply Hl. by left. }
  erewrite bind_ok; last first.
  { erewrite bind_ok by (by apply subscript_Some). reflexivity. }
  erewrite bind_ok by (apply IH; intros ? ?; apply Hl; by right).
  rewrite filter_cons, Hm. unfold ret. do 2 f_equal.
  destruct models as [|m models].
  - by rewrite bool_decide_true, decide_True.
  - by rewrite bool_decide_false, decide_False.
Qed.

(** The comprehension for [empty] never raises: it only asks for keys
    the dictionary has. *)
Lemma empty_total (out : list string) :
  empty RULESET_MODELS out = (out, inr (empty_groups RULESET_MODELS)).
Proof. by apply comprehension_empty. Qed.

Lemma test_ruleset_models_eq (out : list string) :
  test_ruleset_models RULESET_NAMES RULESET_MODELS out
  = (out ++ ruleset_report RULESET_NAMES RULESET_MODELS,
     ruleset_verdict RULESET_NAMES RULESET_MODELS).
Proof.
  unfold test_ruleset_models, ruleset_report, ruleset_verdict.
  erewrite bind_ok by apply when_report.
  erewrite bind_ok by apply when_report.
  erewrite bind_ok by apply empty_total.
  erewrite bind_ok by apply when_report.
  rewrite <- !app_assoc.
  unfold mbind, py_bind, bind. rewrite !assertEqual_length_0.
  repeat case_decide; try done.
  all: by rewrite assertEqual_length_0, ?decide_True, ?decide_False.
Qed.

Lemma available_tables_eq (available_models : list Model) :
  available_tables available_models = db_table <$> available_models.
Proof.
  unfold available_tables.
  enough (∀ acc, foldl (λ tables model, tables ++ [db_table model]) acc available_models
                 = acc ++ (db_table <$> available_models)) as H by apply H.
  induction available_models as [|m ms IH]; intros acc; csimpl.
  - by rewrite app_nil_r.
  - by rewrite IH, <- app_assoc.
Qed.

Lemma missing_models_eq (tables assigned : list string) :
  missing_models tables assigned = filter (λ t, t ∉ assigned) tables.
Proof.
  unfold missing_models.
  enough (∀ acc, foldl (λ missing_models model,
                          if decide (model ∉ assigned) then missing_models ++ [model]
                          else missing_models) acc tables
                 = acc ++ filter (λ t, t ∉ assigned) tables) as H by apply H.
  induction tables as [|t ts IH]; intros acc; simpl.
  - by rewrite app_nil_r.
  - rewrite IH, filter_cons. case_decide; [|done]. by rewrite <- app_assoc.
Qed.

Section loops.
Variable tables : list string.

Lemma check_model_loop (models : list string) (errors : nat) (assigned out : list string) :
  for_with models (check_model tables) (errors, assigned) out
  = (out ++ (invalid_line <$> filter (λ r, r ∉ tables) models),
     inr (errors + length (filter (λ r, r ∉ tables) models), assigned ++ models)).
Proof.
  revert errors assigned out.
  induction models as [|m models IH]; intros errors assigned out; csimpl.
  - by rewrite !app_nil_r, Nat.add_0_r.
  - rewrite filter_cons. unfold check_model at 1. case_decide.
    + erewrite bind_ok; last by (erewrite bind_ok by reflexivity).
      rewrite IH. unfold put_line, stdout_lines. csimpl.
      rewrite <- !app_assoc. do 3 f_equal. lia.
    + erewrite bind_ok by reflexivity. rewrite IH. by rewrite <- !app_assoc.
Qed.

Lemma check_ruleset_loop (l : list string) (errors : nat) (assigned out : list string) :
  (∀ key, key ∈ l → key ∈ keys RULESET_MODELS) →
  for_with l
    (λ st key, models ← subscript RULESET_MODELS key;
               for_with models (check_model tables) st)
    (errors, assigned) out
  = (out ++ (invalid_line
               <$> filter (λ r, r ∉ tables) (key ← l; get RULESET_MODELS key [])),
     inr (errors + length (filter (λ r, r ∉ tables) (key ← l; get RULESET_MODELS key [])),
          assigned ++ (key ← l; get RULESET_MODELS key []))).
Proof.
  revert errors assigned out.
  induction l as [|key l IH]; intros errors assigned out Hl; csimpl.
  - by rewrite !app_nil_r, Nat.add_0_r.
  - destruct (proj2 (lookup_is_Some RULESET_MODELS key)) as [models Hm].
    { apply Hl. by left. }
    erewrite bind_ok; last first.
    { erewrite bind_ok by (by apply subscript_Some). apply check_model_loop. }
    rewrite IH by (intros ? ?; apply Hl; by right).
    rewrite (get_Some _ _ _ _ Hm), filter_app, fmap_app, length_app.
    rewrite <- !app_assoc. do 3 f_equal. lia.
Qed.

(** The loop never raises, counts the invalid references and prints a
    line for each. *)
Lemma check_models_eq (out : list string) :
  check_models RULESET_MODELS tables out
  = (out ++ (invalid_line <$> invalidRefs tables RULESET_MODELS),
     inr (length (invalidRefs tables RULESET_MODELS),
          declared_resources RULESET_MODELS)).
Proof. unfold check_models. by rewrite check_ruleset_loop. Qed.

End loops.

Lemma test_model_names_eq (available_models : list Model) (out : list string) :
  test_model_names RULESET_MODELS available_models out
  = (out ++ model_names_report (db_table <$> available_models) RULESET_MODELS,
     model_names_verdict (db_table <$> available_models) RULESET_MODELS).
Proof.
  unfold test_model_names, model_names_report, model_names_verdict.
  rewrite available_tables_eq.
  erewrite bind_ok by apply check_models_eq.
  cbv beta iota. rewrite missing_models_eq. fold (uncovered (db_table <$> available_models) RULESET_MODELS).
  case_decide as Hinv.
  - rewrite Hinv. simpl. erewrite bind_ok by apply assertEqual_ok.
    rewrite app_nil_r. apply when_report.
  - erewrite bind_raise; [done|].
    rewrite assertEqual_length_0. by rewrite decide_False.
Qed.

End ruleset_facts.

(** ** The sets of the specification *)

Lemma length_append (s t : string) :
  String.length (s +:+ t) = String.length s + String.length t.
Proof. induction s as [|c s IH]; simpl; [done | by rewrite IH]. Qed.

Lemma append_inj_r (t s1 s2 : string) : s1 +:+ t = s2 +:+ t → s1 = s2.
Proof.
  revert s2. induction s1 as [|c1 s1 IH]; intros [|c2 s2] H; simpl in H.
  - done.
  - apply (f_equal String.length) in H. rewrite ?length_append in H. simpl in H.
    rewrite ?length_append in H. lia.
  - apply (f_equal String.length) in H. rewrite ?length_append in H. simpl in H.
    rewrite ?length_append in H. lia.
  - injection H as -> H. f_equal. by apply IH.
Qed.

Lemma invalid_line_inj (r1 r2 : string) : invalid_line r1 = invalid_line r2 → r1 = r2.
Proof. apply append_inj_r. Qed.

Lemma elem_of_invalid_lines (r : string) (l : list string) :
  invalid_line r ∈ invalid_line <$> l ↔ r ∈ l.
Proof.
  rewrite list_elem_of_fmap. split.
  - by intros (r' & ->%invalid_line_inj & Hr').
  - eauto.
Qed.

Section checker_facts.
Variable names : list string.
Variable registry : dict (list string).

Lemma missing_set :
  list_to_set (missing names registry) =@{gset string} list_to_set names ∖ key_set registry.
Proof.
  apply set_eq. intros g. unfold missing, key_set.
  rewrite elem_of_difference, !elem_of_list_to_set, list_elem_of_filter.
  tauto.
Qed.

Lemma extra_set :
  list_to_set (extra names registry) =@{gset string} key_set registry ∖ list_to_set names.
Proof.
  apply set_eq. intros g. unfold extra, key_set.
  rewrite elem_of_difference, !elem_of_list_to_set, list_elem_of_filter.
  tauto.
Qed.

Lemma missing_extra_nil :
  missing names registry = [] ∧ extra names registry = []
  ↔ key_set registry = list_to_set names.
Proof.
  unfold missing, extra, key_set. split.
  - intros [Hm He]. apply set_eq. intros g. rewrite !elem_of_list_to_set. split.
    + intros Hg. destruct (decide (g ∈ names)) as [|Hn]; [done|].
      by destruct (filter_nil_not_elem_of _ _ g He Hn).
    + intros Hg. destruct (decide (g ∈ keys registry)) as [|Hn]; [done|].
      by destruct (filter_nil_not_elem_of _ _ g Hm Hn).
  - intros Heq. split; apply elem_of_nil_inv; intros g [Hn Hg]%list_elem_of_filter;
      apply Hn; apply (elem_of_list_to_set (C := gset string));
      apply (elem_of_list_to_set (C := gset string)) in Hg; congruence.
Qed.

Lemma elem_of_empty_groups (g : string) :
  g ∈ empty_groups registry ↔ lookup registry g = Some [].
Proof.
  unfold empty_groups. rewrite list_elem_of_filter. split; [by intros [? _]|].
  intros Hg. split; [done|]. apply lookup_is_Some. by rewrite Hg.
Qed.

Lemma elem_of_declared_resources (r : string) :
  r ∈ declared_resources registry ↔ ∃ g rs, lookup registry g = Some rs ∧ r ∈ rs.
Proof.
  unfold declared_resources. rewrite list_elem_of_bind. split.
  - intros (g & Hr & [rs Hg]%lookup_is_Some).
    rewrite (get_Some _ _ _ _ Hg) in Hr. eauto.
  - intros (g & rs & Hg & Hr). exists g.
    rewrite (get_Some _ _ _ _ Hg). split; [done|].
    apply lookup_is_Some. by rewrite Hg.
Qed.


Lemma invalidRefs_nil (live : list string) :
  invalidRefs live registry = []
  ↔ ∀ g rs r, lookup registry g = Some rs → r ∈ rs → r ∈ live.
Proof.
  unfold invalidRefs. split.
  - intros Hnil g rs r Hg Hr. destruct (decide (r ∈ live)) as [|Hnot]; [done|].
    exfalso. eapply (filter_nil_not_elem_of _ _ r Hnil Hnot).
    apply elem_of_declared_resources. eauto.
  - intros Hall. apply elem_of_nil_inv. intros r [Hnot Hr]%list_elem_of_filter.
    apply elem_of_declared_resources in Hr as (g & rs & Hg & Hr). eauto.
Qed.

Lemma ruleset_verdict_ok :
  ruleset_verdict names registry = inr tt
  ↔ missing names registry = [] ∧ extra names registry = [] ∧ empty_groups registry = [].
Proof. unfold ruleset_verdict. repeat case_decide; intuition congruence. Qed.

Lemma ruleset_verdict_cases :
  ruleset_verdict names registry = inr tt
  ∨ ∃ msg, ruleset_verdict names registry = inl (AssertionError msg).
Proof. unfold ruleset_verdict. repeat case_decide; eauto. Qed.

Lemma model_names_verdict_ok (live : list string) :
  model_names_verdict live registry = inr tt ↔ invalidRefs live registry = [].
Proof. unfold model_names_verdict. case_decide; intuition congruence. Qed.

Lemma model_names_verdict_cases (live : list string) :
  model_names_verdict live registry = inr tt
  ∨ ∃ msg, model_names_verdict live registry = inl (AssertionError msg).
Proof. unfold model_names_verdict. case_decide; eauto. Qed.

End checker_facts.

Lemma elem_of_report (heading t : string) (l : list string) :
  t ∈ l → heading ∈ report heading l ∧ "- " +:+ t ∈ report heading l.
Proof.
  intros Ht. destruct l as [|x l]; [by apply elem_of_nil in Ht|].
  unfold report. split; [by left|]. right.
  by apply (list_elem_of_fmap_2 (λ m, "- " +:+ m)).
Qed.


(** ** The claims about the consistency tests *)

(** C1, as amended. [test_ruleset_models] computes [missing] as the set
    difference of the canonical names and the registry's keys, and [extra] as
    the difference the other way; both are empty exactly when the key set
    equals the canonical set; and the test passes exactly when [missing],
    [extra] and [empty] are all empty. *)
Theorem ruleset_keys_checked (names : list string) (registry : dict (list string))
    (out : list string) :
  list_to_set (missing names registry) =@{gset string} list_to_set names ∖ key_set registry
  ∧ list_to_set (extra names registry) =@{gset string} key_set registry ∖ list_to_set names
  ∧ (missing names registry = [] ∧ extra names registry = []
     ↔ key_set registry = list_to_set names)
  ∧ ∃ e, empty registry out = (out, inr e)
         ∧ (passes (test_ruleset_models names registry out)
            ↔ missing names registry = [] ∧ extra names registry = [] ∧ e = []).
Proof.
  split_and!.
  - apply missing_set.
  - apply extra_set.
  - apply missing_extra_nil.
  - exists (empty_groups registry). split; [apply empty_total|].
    unfold passes. rewrite test_ruleset_models_eq. apply ruleset_verdict_ok.
Qed.

(** C1 as stated fails: with the registry [{"part": []}] and the canonical
    names [["part"]] both [missing] and [extra] are empty, and the test does
    not pass, because of its third assertion. *)
Lemma ruleset_keys_not_enough :
  missing ["part"] (literal [("part", [])]) = []
  ∧ extra ["part"] (literal [("part", [])]) = []
  ∧ ¬ passes (test_ruleset_models ["part"] (literal [("part", [])]) [])
  ∧ test_ruleset_models ["part"] (literal [("part", [])]) []
    = (["The following rulesets have empty entries in RULESET_MODELS:"; "- part"],
       inl (AssertionError "1 != 0")).
Proof. unfold passes. by vm_compute. Qed.

(** C2. A key of the registry is put in [empty] exactly when its entry is
    the empty list, and the test fails as soon as one declared group has an
    empty entry. *)
Theorem empty_rulesets_checked (names : list string) (registry : dict (list string))
    (out : list string) :
  ∃ e, empty registry out = (out, inr e)
       ∧ (∀ g, g ∈ keys registry →
               (g ∈ e ↔ subscript registry g out = (out, inr [])))
       ∧ ((∃ g, g ∈ keys registry ∧ subscript registry g out = (out, inr []))
          → fails (test_ruleset_models names registry out)).
Proof.
  assert (Hsub : ∀ g, subscript registry g out = (out, inr []) ↔ lookup registry g = Some []).
  { intros g. unfold subscript. destruct (lookup registry g) as [rs|]; [|done].
    unfold ret. split; intros [= ->]; done. }
  exists (empty_groups registry). split_and!.
  - apply empty_total.
  - intros g _. by rewrite Hsub, elem_of_empty_groups.
  - intros (g & _ & Hg%Hsub%elem_of_empty_groups).
    unfold fails. rewrite test_ruleset_models_eq. simpl.
    destruct (ruleset_verdict_cases names registry) as [Hok|Hfail]; [|done].
    apply ruleset_verdict_ok in Hok as (_ & _ & Hnil).
    rewrite Hnil in Hg. by apply elem_of_nil in Hg.
Qed.

(** C3. The loop of [test_model_names] prints the line of a declared
    resource exactly when the resource is no live table, its count of errors
    is zero exactly when every declared resource is live, and that is also
    when the test passes. *)
Theorem model_names_checked (registry : dict (list string)) (available_models : list Model)
    (out : list string) :
  let live := available_tables available_models in
  ∃ printed errors assigned_models,
    check_models registry live out = (out ++ printed, inr (errors, assigned_models))
    ∧ (∀ g rs r, g ∈ keys registry → subscript registry g out = (out, inr rs) → r ∈ rs →
                 (invalid_line r ∈ printed ↔ r ∉ live))
    ∧ (errors = 0
       ↔ ∀ g rs r, g ∈ keys registry → subscript registry g out = (out, inr rs) → r ∈ rs →
                   r ∈ live)
    ∧ (passes (test_model_names registry available_models out)
       ↔ ∀ g rs r, g ∈ keys registry → subscript registry g out = (out, inr rs) → r ∈ rs →
                   r ∈ live).
Proof.
  intros live.
  assert (Hsub : ∀ g rs, subscript registry g out = (out, inr rs) ↔ lookup registry g = Some rs).
  { intros g rs. unfold subscript. destruct (lookup registry g) as [rs'|]; [|done].
    unfold ret. split; intros [= ->]; done. }
  assert (Hall : invalidRefs live registry = []
                 ↔ ∀ g rs r, g ∈ keys registry →
                             subscript registry g out = (out, inr rs) → r ∈ rs → r ∈ live).
  { rewrite invalidRefs_nil. split.
    - intros H g rs r _ Hg%Hsub Hr. by apply (H g rs r).
    - intros H g rs r Hg. apply (H g rs r); [|by apply Hsub].
      apply lookup_is_Some. by rewrite Hg. }
  eexists _, _, _. split_and!.
  - apply check_models_eq.
  - intros g rs r _ Hg%Hsub Hr. rewrite elem_of_invalid_lines. unfold invalidRefs.
    rewrite list_elem_of_filter, elem_of_declared_resources. split; [tauto | eauto].
  - rewrite <- Hall. by destruct (invalidRefs live registry).
  - rewrite <- Hall. unfold passes. rewrite test_model_names_eq.
    subst live. rewrite available_tables_eq. apply model_names_verdict_ok.
Qed.


(** C5, as amended. The code has no single [validate]: each test prints
    what it found after whatever was on standard output and then asserts.
    Its lines and its outcome depend on its inputs only; the outcome is a
    pass or the [AssertionError] of the test, never a [KeyError];
    [test_ruleset_models] passes exactly when [missing], [extra] and [empty]
    are empty, and [test_model_names] exactly when no reference is invalid,
    in which case it goes on to print the uncovered tables. *)
Theorem tests_report_then_assert (names : list string) (registry : dict (list string))
    (available_models : list Model) (out : list string) :
  let live := db_table <$> available_models in
  test_ruleset_models names registry out
  = (out ++ ruleset_report names registry, ruleset_verdict names registry)
  ∧ test_model_names registry available_models out
    = (out ++ model_names_report live registry, model_names_verdict live registry)
  ∧ (passes (test_ruleset_models names registry out)
     ∨ fails (test_ruleset_models names registry out))
  ∧ (passes (test_model_names registry available_models out)
     ∨ fails (test_model_names registry available_models out))
  ∧ (passes (test_ruleset_models names registry out)
     ↔ missing names registry = [] ∧ extra names registry = []
       ∧ empty_groups registry = [])
  ∧ (passes (test_model_names registry available_models out)
     ↔ invalidRefs live registry = [])
  ∧ (invalidRefs live registry = [] →
     model_names_report live registry
     = report "WARNING: The following database models are not covered by the define RuleSet permissions:"
         (uncovered live registry)).
Proof.
  intros live. unfold passes, fails.
  rewrite test_ruleset_models_eq, test_model_names_eq. simpl. split_and!.
  - done.
  - done.
  - apply ruleset_verdict_cases.
  - apply model_names_verdict_cases.
  - apply ruleset_verdict_ok.
  - apply model_names_verdict_ok.
  - intros Hnil. unfold model_names_report. by rewrite decide_True.
Qed.

(** C5 as stated fails: on a registry with a dangling reference
    [test_model_names] raises [AssertionError] itself, and it does so before
    the uncovered tables are computed or reported. *)
Lemma test_model_names_raises :
  test_model_names (literal [("part", ["nope"])]) [ {| db_table := "part_part" |} ] []
  = (["nope is not a valid database table"], inl (AssertionError "1 != 0"))
  ∧ uncovered ["part_part"] (literal [("part", ["nope"])]) = ["part_part"]
  ∧ test_ruleset_models ["part"; "stock"] (literal [("part", ["part_part"])]) []
    = (["The following rulesets do not have models assigned:"; "- stock"],
       inl (AssertionError "1 != 0")).
Proof. by vm_compute. Qed.

(** C6. Asking the registry for a group it does not declare fails with
    the error of an unknown group and yields no default; for a declared
    group the lookup returns the resources the registry holds for it. *)
Theorem resourcesFor_unknown_group {W : Type} (registry : dict (list string))
    (g : string) (w : W) :
  (g ∉ keys registry → resourcesFor registry g w = (w, inl (UnknownGroupError g)))
  ∧ (g ∈ keys registry →
     ∃ rs, resourcesFor registry g w = (w, inr rs) ∧ (g, rs) ∈ registry
           ∧ lookup registry g = Some rs).
Proof.
  unfold resourcesFor, UnknownGroupError. split.
  - intros Hg%lookup_None. by apply subscript_None.
  - intros [rs Hg]%lookup_is_Some. exists rs. split_and!; [|by apply lookup_Some_elem_of|done].
    by apply subscript_Some.
Qed.

(** C7. The example of the specification: nothing is missing, extra, empty
    or invalid, [orders_order] is the one uncovered table, and both tests
    pass. *)
Theorem spec_example :
  let names := ["part"; "stock"] in
  let registry := literal [("part", ["part_part"]); ("stock", ["stock_stockitem"])] in
  let available_models :=
    [ {| db_table := "part_part" |}; {| db_table := "stock_stockitem" |};
      {| db_table := "orders_order" |} ] in
  let live := available_tables available_models in
  missing names registry = []
  ∧ extra names registry = []
  ∧ empty registry [] = ([], inr [])
  ∧ check_models registry live [] = ([], inr (0, ["part_part"; "stock_stockitem"]))
  ∧ invalidRefs live registry = []
  ∧ missing_models live ["part_part"; "stock_stockitem"] = ["orders_order"]
  ∧ uncovered live registry = ["orders_order"]
  ∧ passes (test_ruleset_models names registry [])
  ∧ passes (test_model_names registry available_models []).
Proof. unfold passes. by vm_compute. Qed.

(** ** Properties of InvenTree/apps.py *)

Section keeps_facts.
Context {B : Type} (f : World → B).

Lemma keeps_ret {A} (a : A) : keeps f (ret a).
Proof. done. Qed.

Lemma keeps_mret {A} (a : A) : keeps f (mret a).
Proof. done. Qed.

Lemma keeps_raise {A} (e : exn) : keeps f (raise (A := A) e).
Proof. done. Qed.

Lemma keeps_bind {A C} (c : Py World A) (k : A → Py World C) :
  keeps f c → (∀ a, keeps f (k a)) → keeps f (c ≫= k).
Proof.
  intros Hc Hk w. unfold mbind, py_bind, bind.
  specialize (Hc w). destruct (c w) as [w' [e|a]]; simpl in *; [done|].
  by rewrite Hk.
Qed.

Lemma keeps_try_except {A} (c : Py World A) (h : exn → option (Py World A)) :
  keeps f c → (∀ e handler, h e = Some handler → keeps f handler) →
  keeps f (try_except c h).
Proof.
  intros Hc Hh w. unfold try_except.
  specialize (Hc w). destruct (c w) as [w' [e|a]]; simpl in *; [|done].
  destruct (h e) as [handler|] eqn:He; simpl; [|done].
  by rewrite (Hh _ _ He).
Qed.

Lemma keeps_if {A} (b : bool) (c1 c2 : Py World A) :
  keeps f c1 → keeps f c2 → keeps f (if b then c1 else c2).
Proof. by destruct b. Qed.

Lemma keeps_when (b : bool) (c : Py World unit) : keeps f c → keeps f (when b c).
Proof. intros Hc. by apply keeps_if. Qed.

Lemma keeps_if_decide {A} (P : Prop) `{Decision P} (c1 c2 : Py World A) :
  keeps f c1 → keeps f c2 → keeps f (if decide P then c1 else c2).
Proof. by case_decide. Qed.

Lemma keeps_try_import {A} (c handler : Py World A) :
  keeps f c → keeps f handler →
  keeps f (try_except c (is_AppRegistryNotReady handler)).
Proof.
  intros Hc Hh. apply keeps_try_except; [done|].
  intros e handler' He. by destruct e; simplify_eq/=.
Qed.

End keeps_facts.

Create HintDb keeps.
#[local] Hint Resolve keeps_ret keeps_mret keeps_raise keeps_bind keeps_try_import
  keeps_if keeps_if_decide keeps_when : keeps.

Lemma keeps_calls_logger lvl msg : keeps calls (logger lvl msg).
Proof. done. Qed.

Lemma keeps_calls_print line : keeps calls (print line).
Proof. done. Qed.

Lemma keeps_calls_get_exchange_backend n : keeps calls (get_exchange_backend n).
Proof. intros w. unfold get_exchange_backend. by repeat case_match. Qed.

Lemma keeps_calls_delete_schedules funcs : keeps calls (delete_schedules_func_in funcs).
Proof. done. Qed.

Lemma keeps_calls_call_get_user_model (get_user_model : exn + UserModel) :
  keeps calls (call_get_user_model get_user_model).
Proof. done. Qed.

#[local] Hint Resolve keeps_calls_logger keeps_calls_print keeps_calls_get_exchange_backend
  keeps_calls_delete_schedules keeps_calls_call_get_user_model : keeps.

Section app_facts.
Variable canAppAccessDatabase : bool.
Variable isInTestMode : bool.
Variable importable : string → bool.
Variable schedule_task :
  string → ScheduleType → option nat → list Schedule → list Schedule.
Variable tasks_update_exchange_rates :
  list ExchangeBackend → list ExchangeBackend * option exn.
Variable currency_code_default : string.
Variable get_setting : string → pyval → pyval.
Variable CONFIG : dict pyval.
Variable get_user_model : exn + UserModel.

Lemma remove_obsolete_tasks_eq (w : World) :
  remove_obsolete_tasks importable w
  = (if importable "django_q.models"
     then set_schedules (filter (λ s, func s ∉ obsolete)) (add_call Remove_obsolete_tasks w)
     else add_call Remove_obsolete_tasks w,
     inr tt).
Proof.
  unfold remove_obsolete_tasks, import_module, try_except, mbind, py_bind, bind. simpl.
  by destruct (importable "django_q.models").
Qed.

Lemma start_background_tasks_eq (w : World) :
  start_background_tasks importable schedule_task w
  = (if importable "django_q.models"
     then set_schedules (background_tasks schedule_task)
            (add_log INFO "Starting background tasks..." (add_call Start_background_tasks w))
     else add_call Start_background_tasks w,
     inr tt).
Proof.
  unfold start_background_tasks, import_module, try_except, mbind, py_bind, bind. simpl.
  by destruct (importable "django_q.models").
Qed.

Lemma keeps_calls_call_update_exchange_rates :
  keeps calls (call_update_exchange_rates tasks_update_exchange_rates).
Proof. intros w. unfold call_update_exchange_rates. by repeat case_match. Qed.

Lemma keeps_calls_import_module package :
  keeps calls (import_module importable package).
Proof. unfold import_module. auto with keeps. Qed.

Lemma keeps_calls_call_create_user user u e p :
  keeps calls (call_create_user user u e p).
Proof. intros w. unfold call_create_user. by repeat case_match. Qed.

#[local] Hint Resolve keeps_calls_call_update_exchange_rates keeps_calls_import_module
  keeps_calls_call_create_user : keeps.

(** Whatever path it takes, [update_exchange_rates] leaves one entry in
    the call record: its own. *)
Lemma update_exchange_rates_calls (w : World) :
  calls (update_exchange_rates importable tasks_update_exchange_rates
           currency_code_default w).1
  = calls w ++ [Update_exchange_rates].
Proof.
  unfold update_exchange_rates.
  erewrite bind_ok by reflexivity.
  match goal with |- calls (?c _).1 = _ => assert (keeps calls c) as Hk end; [|by rewrite Hk].
  apply keeps_bind; [auto 10 with keeps | intros imported].
  apply keeps_bind; [auto with keeps | intros base_currency].
  apply keeps_bind.
  - apply keeps_try_except; [auto 10 with keeps|].
    intros e handler He. destruct e; simplify_eq; auto with keeps.
  - intros [[]|]; auto with keeps.
    apply keeps_try_except; [auto with keeps|].
    intros e handler [= <-]. auto with keeps.
Qed.

Lemma truthy_py_and (a b : pyval) : truthy (py_and a b) = truthy a && truthy b.
Proof. unfold py_and. by destruct (truthy a) eqn:Ha. Qed.

Lemma add_user_on_startup_incomplete (w : World) :
  all_settings_present get_setting CONFIG = false →
  add_user_on_startup get_setting CONFIG get_user_model w
  = (add_log WARNING settings_warning (add_call Add_user_on_startup w), inr tt).
Proof.
  unfold all_settings_present, set_user, set_email, set_password. intros Hs.
  unfold add_user_on_startup. erewrite bind_ok by reflexivity.
  by rewrite !truthy_py_and, Hs.
Qed.

Lemma add_user_on_startup_complete (w : World) :
  all_settings_present get_setting CONFIG = true →
  add_user_on_startup get_setting CONFIG get_user_model w
  = (user ← call_get_user_model get_user_model;
     try_except
       (new_user ← call_create_user user (set_user get_setting CONFIG)
                     (set_email get_setting CONFIG) (set_password get_setting CONFIG);
        logger INFO ("User " +:+ username new_user +:+ " was created!"))
       (λ _e, Some (print (str_exn _e))))
      (add_call Add_user_on_startup w).
Proof.
  unfold all_settings_present, set_user, set_email, set_password. intros Hs.
  unfold add_user_on_startup. erewrite bind_ok by reflexivity.
  by rewrite !truthy_py_and, Hs.
Qed.

Lemma add_user_on_startup_calls (w : World) :
  calls (add_user_on_startup get_setting CONFIG get_user_model w).1
  = calls w ++ [Add_user_on_startup].
Proof.
  unfold add_user_on_startup. erewrite bind_ok by reflexivity.
  match goal with |- calls (?c _).1 = _ => assert (keeps calls c) as Hk end; [|by rewrite Hk].
  apply keeps_if; [auto with keeps|].
  apply keeps_bind; [auto with keeps | intros user].
  apply keeps_try_except; [auto with keeps|].
  intros e handler [= <-]. auto with keeps.
Qed.

End app_facts.

(** ** The claims about the startup hooks *)

(** C8. [add_user_on_startup] changes the user table only when the three
    settings are all truthy; when one of them is falsy it returns after
    logging one warning, and no table and no output has changed. *)
Theorem add_user_needs_all_settings (get_setting : string → pyval → pyval)
    (CONFIG : dict pyval)
    (get_user_model : exn + UserModel)
    (w : World) :
  let run := add_user_on_startup get_setting CONFIG get_user_model w in
  (users run.1 ≠ users w →
   truthy (set_user get_setting CONFIG) = true
   ∧ truthy (set_email get_setting CONFIG) = true
   ∧ truthy (set_password get_setting CONFIG) = true)
  ∧ (truthy (set_user get_setting CONFIG) = false
     ∨ truthy (set_email get_setting CONFIG) = false
     ∨ truthy (set_password get_setting CONFIG) = false →
     run = (add_log WARNING settings_warning (add_call Add_user_on_startup w), inr tt)
     ∧ log run.1 = log w ++ [(WARNING, settings_warning)]
     ∧ users run.1 = users w
     ∧ schedules run.1 = schedules w
     ∧ exchange_backends run.1 = exchange_backends w
     ∧ stdout run.1 = stdout w).
Proof.
  intros run. subst run.
  destruct (all_settings_present get_setting CONFIG) eqn:Hs.
  - apply andb_prop in Hs as [[Hu He]%andb_prop Hp]. split; [done|].
    intros [H|[H|H]]; congruence.
  - rewrite add_user_on_startup_incomplete by done. simpl. done.
Qed.

(** C9, as amended. [remove_obsolete_tasks] never raises and leaves every
    scheduled task whose function is not one of the two obsolete names as
    it was, in place and in order, and touches nothing else; when the
    models of django_q can be imported it deletes exactly the tasks with an
    obsolete function, and when they cannot it deletes nothing. *)
Theorem remove_obsolete_tasks_frame (importable : string → bool) (w : World) :
  let run := remove_obsolete_tasks importable w in
  run.2 = inr tt
  ∧ filter (λ s, func s ∉ obsolete) (schedules run.1)
    = filter (λ s, func s ∉ obsolete) (schedules w)
  ∧ (∀ s, func s ∉ obsolete → (s ∈ schedules run.1 ↔ s ∈ schedules w))
  ∧ exchange_backends run.1 = exchange_backends w
  ∧ users run.1 = users w ∧ log run.1 = log w ∧ stdout run.1 = stdout w
  ∧ (importable "django_q.models" = true →
     schedules run.1 = filter (λ s, func s ∉ obsolete) (schedules w)
     ∧ ∀ s, s ∈ schedules w → (s ∉ schedules run.1 ↔ func s ∈ obsolete))
  ∧ (importable "django_q.models" = false → schedules run.1 = schedules w).
Proof.
  intros run. subst run. rewrite remove_obsolete_tasks_eq.
  destruct (importable "django_q.models"); simpl; split_and!; try done.
  - apply list_filter_filter_l. tauto.
  - intros s Hs. rewrite list_elem_of_filter. tauto.
  - intros _. split; [done|]. intros s Hs. rewrite list_elem_of_filter.
    destruct (decide (func s ∈ obsolete)); tauto.
Qed.

Section startup_claims.
Variable canAppAccessDatabase : bool.
Variable isInTestMode : bool.
Variable importable : string → bool.
Variable schedule_task :
  string → ScheduleType → option nat → list Schedule → list Schedule.
Variable tasks_update_exchange_rates :
  list ExchangeBackend → list ExchangeBackend * option exn.
Variable currency_code_default : string.
Variable get_setting : string → pyval → pyval.
Variable CONFIG : dict pyval.
Variable get_user_model : exn + UserModel.

(** C10. In the call record of [ready], [update_exchange_rates] occurs
    exactly when the database is accessible and the process is not in test
    mode; whenever it occurs, [remove_obsolete_tasks] and
    [start_background_tasks] are the two entries before it, and it runs in
    the world those two left. *)
Theorem update_exchange_rates_on_startup (w : World) :
  let run := ready canAppAccessDatabase isInTestMode importable schedule_task
               tasks_update_exchange_rates currency_code_default
               get_setting CONFIG get_user_model w in
  ∃ trace,
    calls run.1 = calls w ++ trace
    ∧ (Update_exchange_rates ∈ trace
       ↔ canAppAccessDatabase = true ∧ isInTestMode = false)
    ∧ (∀ pre post, trace = pre ++ Update_exchange_rates :: post →
         ∃ pre', pre = pre' ++ [Remove_obsolete_tasks; Start_background_tasks])
    ∧ (canAppAccessDatabase = true → isInTestMode = false →
       ∃ w1 w2,
         remove_obsolete_tasks importable (add_call Ready w) = (w1, inr tt)
         ∧ start_background_tasks importable schedule_task w1 = (w2, inr tt)
         ∧ schedules w2
           = (if importable "django_q.models"
              then background_tasks schedule_task
                     (filter (λ s, func s ∉ obsolete) (schedules w))
              else schedules w)
         ∧ run = (update_exchange_rates importable tasks_update_exchange_rates
                    currency_code_default ;;
                  add_user_on_startup get_setting CONFIG get_user_model) w2).
Proof.
  intros run. subst run. unfold ready. erewrite bind_ok by reflexivity.
  destruct canAppAccessDatabase; last first.
  { exists [Ready]. split_and!; [done| | |done].
    - rewrite list_elem_of_singleton. intuition discriminate.
    - intros [|? [|? ?]] post ?; simplify_eq/=. }
  pose (w1 := (remove_obsolete_tasks importable (add_call Ready w)).1).
  pose (w2 := (start_background_tasks importable schedule_task w1).1).
  assert (Hw1 : remove_obsolete_tasks importable (add_call Ready w) = (w1, inr tt)).
  { subst w1. by rewrite remove_obsolete_tasks_eq. }
  assert (Hw2 : start_background_tasks importable schedule_task w1 = (w2, inr tt)).
  { subst w2. by rewrite start_background_tasks_eq. }
  assert (Hsched : schedules w2
                   = (if importable "django_q.models"
                      then background_tasks schedule_task
                             (filter (λ s, func s ∉ obsolete) (schedules w))
                      else schedules w)).
  { subst w2 w1. rewrite start_background_tasks_eq, remove_obsolete_tasks_eq.
    by destruct (importable "django_q.models"). }
  assert (Hcalls : calls w2 = calls w ++ [Ready; Remove_obsolete_tasks; Start_background_tasks]).
  { subst w2 w1. rewrite start_background_tasks_eq, remove_obsolete_tasks_eq.
    destruct (importable "django_q.models"); simpl; by rewrite <- !app_assoc. }
  erewrite bind_ok by exact Hw1. erewrite bind_ok by exact Hw2.
  clearbody w1 w2.
  pose proof (add_user_on_startup_calls get_setting CONFIG get_user_model) as Hadd.
  destruct isInTestMode; simpl.
  { exists [Ready; Remove_obsolete_tasks; Start_background_tasks; Add_user_on_startup].
    rewrite bind_ret_l. split_and!.
    - rewrite Hadd, Hcalls. by rewrite <- app_assoc.
    - rewrite !elem_of_cons, elem_of_nil. intuition discriminate.
    - intros pre post Heq. repeat (destruct pre as [|? pre]; simplify_eq/=).
    - done. }
  pose proof (update_exchange_rates_calls importable tasks_update_exchange_rates
                currency_code_default w2) as Hupd.
  unfold mbind at 1, py_bind at 1, bind at 1.
  destruct (update_exchange_rates _ _ _ w2) as [w3 [e|[]]] eqn:Hrun; simpl in Hupd.
  - exists [Ready; Remove_obsolete_tasks; Start_background_tasks; Update_exchange_rates].
    split_and!.
    + simpl. rewrite Hupd, Hcalls. by rewrite <- app_assoc.
    + rewrite !elem_of_cons. intuition.
    + intros pre post Heq. repeat (destruct pre as [|? pre]; simplify_eq/=).
      by exists [Ready].
    + intros _ _. by exists w1, w2.
  - exists [Ready; Remove_obsolete_tasks; Start_background_tasks; Update_exchange_rates;
            Add_user_on_startup].
    split_and!.
    + rewrite Hadd, Hupd, Hcalls. by rewrite <- !app_assoc.
    + rewrite !elem_of_cons. intuition.
    + intros pre post Heq. repeat (destruct pre as [|? pre]; simplify_eq/=).
      by exists [Ready].
    + intros _ _. by exists w1, w2.
Qed.

End startup_claims.

(** C9 as stated fails: when the models of django_q cannot be imported the
    method returns at once, and a task with an obsolete function stays. *)
Lemma remove_obsolete_tasks_not_ready :
  func Examples.old_task ∈ obsolete
  ∧ remove_obsolete_tasks (λ _, false) Examples.world
    = (add_call Remove_obsolete_tasks Examples.world, inr tt)
  ∧ schedules (remove_obsolete_tasks (λ _, false) Examples.world).1
    = [Examples.old_task; Examples.heartbeat].
Proof. split; [compute_done | by vm_compute]. Qed.

(** ** The claims at sample inputs *)

Lemma empty_rulesets_checked_witness :
  ∃ e, empty Examples.registry [] = ([], inr e)
       ∧ "stock" ∈ e ∧ ("part" ∉ e)
       ∧ fails (test_ruleset_models Examples.names Examples.registry []).
Proof.
  destruct (empty_rulesets_checked Examples.names Examples.registry [])
    as (e & He & Hin & Hfail).
  exists e. split_and!.
  - exact He.
  - apply Hin; [compute_done | reflexivity].
  - intros Hpart. apply Hin in Hpart; [discriminate Hpart | compute_done].
  - apply Hfail. exists "stock". split; [compute_done | reflexivity].
Defined.

Lemma model_names_checked_witness :
  ∃ printed errors assigned_models,
    check_models Examples.registry (available_tables Examples.available_models) []
    = ([] ++ printed, inr (errors, assigned_models))
    ∧ invalid_line "part_legacy" ∈ printed
    ∧ (invalid_line "part_part" ∉ printed)
    ∧ errors ≠ 0
    ∧ ¬ passes (test_model_names Examples.registry Examples.available_models []).
Proof.
  destruct (model_names_checked Examples.registry Examples.available_models [])
    as (printed & errors & assigned & Hrun & Hline & Herr & Hpass).
  exists printed, errors, assigned. split_and!.
  - exact Hrun.
  - apply (Hline "part" ["part_part"; "part_legacy"]);
      [compute_done | reflexivity | compute_done | compute_done].
  - intros Hin.
    apply (Hline "part" ["part_part"; "part_legacy"]) in Hin;
      [apply Hin; compute_done | compute_done | reflexivity | compute_done].
  - intros H0. cut ("part_legacy" ∈ available_tables Examples.available_models).
    + apply (bool_decide_eq_false_1 _). by vm_compute.
    + apply (proj1 Herr H0 "part" ["part_part"; "part_legacy"]);
        [compute_done | reflexivity | compute_done].
  - intros Hp. cut ("part_legacy" ∈ available_tables Examples.available_models).
    + apply (bool_decide_eq_false_1 _). by vm_compute.
    + apply (proj1 Hpass Hp "part" ["part_part"; "part_legacy"]);
        [compute_done | reflexivity | compute_done].
Defined.


Lemma resourcesFor_unknown_group_witness :
  resourcesFor Examples.registry "orders" () = ((), inl (UnknownGroupError "orders"))
  ∧ ∃ rs, resourcesFor Examples.registry "part" () = ((), inr rs)
          ∧ ("part", rs) ∈ Examples.registry
          ∧ lookup Examples.registry "part" = Some rs.
Proof.
  split.
  - apply (resourcesFor_unknown_group Examples.registry "orders" ()). compute_done.
  - apply (resourcesFor_unknown_group Examples.registry "part" ()). compute_done.
Defined.

Lemma add_user_needs_all_settings_witness :
  (add_user_on_startup Examples.get_setting Examples.CONFIG (inr Samples.user_model)
     Examples.world).1
  = add_log WARNING settings_warning (add_call Add_user_on_startup Examples.world)
  ∧ users (add_user_on_startup Examples.get_setting Examples.CONFIG (inr Samples.user_model)
             Examples.world).1 = []
  ∧ truthy (set_password Examples.get_setting Examples.full_CONFIG) = true.
Proof.
  destruct (add_user_needs_all_settings Examples.get_setting Examples.CONFIG
              (inr Samples.user_model) Examples.world) as [_ Hwarn].
  destruct (add_user_needs_all_settings Examples.get_setting Examples.full_CONFIG
              (inr Samples.user_model) Examples.world) as [Hcreated _].
  destruct Hwarn as (Hrun & _ & Husers & _); [right; right; reflexivity|].
  split_and!.
  - by rewrite Hrun.
  - exact Husers.
  - apply Hcreated. discriminate.
Defined.

Lemma remove_obsolete_tasks_frame_witness :
  schedules (remove_obsolete_tasks (λ _, true) Examples.world).1
  = filter (λ s, func s ∉ obsolete) (schedules Examples.world)
  ∧ Examples.heartbeat ∈ schedules (remove_obsolete_tasks (λ _, true) Examples.world).1
  ∧ (Examples.old_task ∉ schedules (remove_obsolete_tasks (λ _, true) Examples.world).1)
  ∧ schedules (remove_obsolete_tasks (λ _, false) Examples.world).1
    = schedules Examples.world.
Proof.
  destruct (remove_obsolete_tasks_frame (λ _, true) Examples.world)
    as (_ & _ & Hframe & _ & _ & _ & _ & Hready & _).
  destruct (remove_obsolete_tasks_frame (λ _, false) Examples.world)
    as (_ & _ & _ & _ & _ & _ & _ & _ & Hnot).
  destruct Hready as [Heq Hdel]; [reflexivity|].
  split_and!.
  - exact Heq.
  - apply Hframe; compute_done.
  - apply Hdel; compute_done.
  - apply Hnot. reflexivity.
Defined.

Lemma update_exchange_rates_on_startup_witness :
  ∃ w1 w2,
    remove_obsolete_tasks (λ _, true) (add_call Ready Examples.world) = (w1, inr tt)
    ∧ start_background_tasks (λ _, true) Examples.schedule_task w1 = (w2, inr tt)
    ∧ ready true false (λ _, true) Examples.schedule_task Examples.update_rates "USD"
        Examples.get_setting Examples.full_CONFIG (inr Samples.user_model) Examples.world
      = (update_exchange_rates (λ _, true) Examples.update_rates "USD" ;;
         add_user_on_startup Examples.get_setting Examples.full_CONFIG
           (inr Samples.user_model)) w2.
Proof.
  destruct (update_exchange_rates_on_startup true false (λ _, true) Examples.schedule_task
              Examples.update_rates "USD" Examples.get_setting Examples.full_CONFIG
              (inr Samples.user_model) Examples.world)
    as (trace & _ & _ & _ & Hrun).
  destruct Hrun as (w1 & w2 & H1 & H2 & _ & Hready); [reflexivity | reflexivity |].
  by exists w1, w2.
Defined.

(** ** More about the startup hooks *)

Section rates_facts.
Variable importable : string → bool.
Variable tasks_update_exchange_rates :
  list ExchangeBackend → list ExchangeBackend * option exn.
Variable currency_code_default : string.

Lemma guarded_task_eq (w : World) :
  try_except (call_update_exchange_rates tasks_update_exchange_rates)
    (λ e, Some (logger ERROR ("Error updating exchange rates: " +:+ str_exn e))) w
  = (after_task tasks_update_exchange_rates w, inr tt).
Proof.
  unfold try_except, call_update_exchange_rates, after_task.
  by destruct (tasks_update_exchange_rates (exchange_backends w)) as [bs [e|]].
Qed.

Lemma after_task_spec (w : World) :
  exchange_backends (after_task tasks_update_exchange_rates w)
  = (tasks_update_exchange_rates (exchange_backends w)).1
  ∧ ∀ e, (tasks_update_exchange_rates (exchange_backends w)).2 = Some e →
         log (after_task tasks_update_exchange_rates w)
         = log w ++ [(ERROR, "Error updating exchange rates: " +:+ str_exn e)].
Proof.
  unfold after_task.
  destruct (tasks_update_exchange_rates (exchange_backends w)) as [bs [e|]]; simpl.
  - split; [done|]. by intros ? [= <-].
  - split; [done|]. by intros ? [=].
Qed.

Lemma update_exchange_rates_unimportable (w : World) :
  rates_importable importable = false →
  update_exchange_rates importable tasks_update_exchange_rates currency_code_default w
  = (add_call Update_exchange_rates w, inl (NameError "currency_code_default")).
Proof.
  unfold rates_importable, update_exchange_rates, import_module, try_except,
    mbind, py_bind, bind. simpl.
  by destruct (importable "djmoney.contrib.exchange.models"),
    (importable "InvenTree.tasks"), (importable "common.settings").
Qed.

Lemma update_exchange_rates_importable (w : World) :
  rates_importable importable = true →
  update_exchange_rates importable tasks_update_exchange_rates currency_code_default w
  = let w0 := add_call Update_exchange_rates w in
    match inventree_backends w with
    | [] =>
        (after_task tasks_update_exchange_rates
           (add_log INFO "Exchange backend not found - updating" w0), inr tt)
    | [b] =>
        let w1 := if decide (backend_last_update b = None)
                  then add_log INFO "Exchange backend has never been updated" w0
                  else w0 in
        let w2 := if bool_decide (currency_code_default = backend_base_currency b)
                  then w1
                  else add_log INFO ("Base currency changed from "
                                     +:+ backend_base_currency b +:+ " to "
                                     +:+ currency_code_default) w1 in
        if up_to_date currency_code_default b then (w2, inr tt)
        else (after_task tasks_update_exchange_rates w2, inr tt)
    | _ => (w0, inr tt)
    end.
Proof.
  unfold rates_importable. intros [[H1 H2]%andb_prop H3]%andb_prop.
  unfold update_exchange_rates. erewrite bind_ok by reflexivity.
  erewrite bind_ok; last first.
  { unfold try_except, import_module, mbind, py_bind, bind. rewrite H1, H2, H3. reflexivity. }
  erewrite bind_ok by reflexivity.
  unfold inventree_backends, up_to_date. cbv zeta.
  set (w0 := add_call Update_exchange_rates w).
  change (exchange_backends w) with (exchange_backends w0).
  destruct (filter _ (exchange_backends w0)) as [|b [|b' bs]] eqn:Hf.
  - erewrite bind_ok; last first.
    { unfold try_except, get_exchange_backend, mbind, py_bind, bind.
      rewrite Hf. reflexivity. }
    apply guarded_task_eq.
  - destruct (decide (backend_last_update b = None)) as [Hl|Hl];
      destruct (bool_decide (currency_code_default = backend_base_currency b)) eqn:Hc;
      (erewrite bind_ok; last first;
       [ unfold try_except, get_exchange_backend, mbind, py_bind, bind;
         rewrite Hf, Hc; first [rewrite (decide_True _ _ Hl) | rewrite (decide_False _ _ Hl)];
         reflexivity | ]).
    + rewrite bool_decide_false by (by intros []). apply guarded_task_eq.
    + rewrite bool_decide_false by (by intros []). apply guarded_task_eq.
    + by rewrite bool_decide_true.
    + rewrite bool_decide_true by done. apply guarded_task_eq.
  - erewrite bind_ok; last first.
    { unfold try_except, get_exchange_backend, mbind, py_bind, bind.
      rewrite Hf. reflexivity. }
    done.
Qed.

End rates_facts.

Ltac keeps_leaf :=
  by (intros ?;
      unfold logger, print, put_line, stdout_world, enter, delete_schedules_func_in,
        call_schedule_task, call_get_user_model, call_create_user,
        call_update_exchange_rates,
        get_exchange_backend, import_module, ret, raise;
      simpl; repeat case_match; simplify_eq/=).

Ltac solve_keeps :=
  repeat first
    [ apply keeps_ret | apply keeps_mret | apply keeps_raise
    | apply keeps_bind; [|intros ?]
    | apply keeps_try_import
    | apply keeps_try_except; [|intros ? ? ?; repeat case_match; simplify_eq/=]
    | apply keeps_if_decide | apply keeps_if | apply keeps_when
    | match goal with |- keeps _ (match ?x with _ => _ end) => destruct x end
    | keeps_leaf ].

Section frame_facts.
Variable importable : string → bool.
Variable schedule_task :
  string → ScheduleType → option nat → list Schedule → list Schedule.
Variable tasks_update_exchange_rates :
  list ExchangeBackend → list ExchangeBackend * option exn.
Variable currency_code_default : string.
Variable get_setting : string → pyval → pyval.
Variable CONFIG : dict pyval.
Variable get_user_model : exn + UserModel.

Lemma update_exchange_rates_keeps_users :
  keeps users (update_exchange_rates importable tasks_update_exchange_rates
                 currency_code_default).
Proof. unfold update_exchange_rates. solve_keeps. Qed.

Lemma update_exchange_rates_keeps_schedules :
  keeps schedules (update_exchange_rates importable tasks_update_exchange_rates
                     currency_code_default).
Proof. unfold update_exchange_rates. solve_keeps. Qed.

Lemma update_exchange_rates_keeps_stdout :
  keeps stdout (update_exchange_rates importable tasks_update_exchange_rates
                  currency_code_default).
Proof. unfold update_exchange_rates. solve_keeps. Qed.

Lemma add_user_on_startup_keeps_schedules :
  keeps schedules (add_user_on_startup get_setting CONFIG get_user_model).
Proof. unfold add_user_on_startup. solve_keeps. Qed.

Lemma add_user_on_startup_keeps_backends :
  keeps exchange_backends (add_user_on_startup get_setting CONFIG get_user_model).
Proof. unfold add_user_on_startup. solve_keeps. Qed.

(** What [add_user_on_startup] leaves: it raises what [get_user_model]
    raises, and nothing else. *)
Lemma add_user_on_startup_result (w : World) :
  (add_user_on_startup get_setting CONFIG get_user_model w).2
  = if all_settings_present get_setting CONFIG
    then match get_user_model with inl e => inl e | inr _ => inr tt end
    else inr tt.
Proof.
  destruct (all_settings_present get_setting CONFIG) eqn:Hs.
  - rewrite add_user_on_startup_complete by done.
    unfold call_get_user_model, try_except, call_create_user, mbind, py_bind, bind.
    destruct get_user_model as [e|user]; [done|]. simpl.
    by destruct (objects_create_user user _ _ _ (users w)) as [us [e|row]].
  - by rewrite add_user_on_startup_incomplete.
Qed.

Lemma add_user_on_startup_no_model (w : World) (e : exn) :
  all_settings_present get_setting CONFIG = true →
  get_user_model = inl e →
  add_user_on_startup get_setting CONFIG get_user_model w
  = (add_call Add_user_on_startup w, inl e).
Proof.
  intros Hs Hm. rewrite add_user_on_startup_complete by done.
  unfold call_get_user_model, mbind, py_bind, bind. by rewrite Hm.
Qed.

Lemma add_user_on_startup_created (w : World) (user : UserModel) :
  all_settings_present get_setting CONFIG = true →
  get_user_model = inr user →
  add_user_on_startup get_setting CONFIG get_user_model w
  = match objects_create_user user (set_user get_setting CONFIG)
            (set_email get_setting CONFIG) (set_password get_setting CONFIG) (users w) with
    | (us, inr new_user) =>
        (add_log INFO ("User " +:+ username new_user +:+ " was created!")
           (set_users us (add_call Add_user_on_startup w)), inr tt)
    | (us, inl e) =>
        (put_line (str_exn e) (set_users us (add_call Add_user_on_startup w)), inr tt)
    end.
Proof.
  intros Hs Hm. rewrite add_user_on_startup_complete by done.
  unfold call_get_user_model, try_except, call_create_user, mbind, py_bind, bind.
  rewrite Hm. simpl.
  by destruct (objects_create_user user _ _ _ (users w)) as [us [e|row]].
Qed.

Lemma add_user_on_startup_keeps_users_on_raise (w : World) (e : exn) :
  (add_user_on_startup get_setting CONFIG get_user_model w).2 = inl e →
  add_user_on_startup get_setting CONFIG get_user_model w
  = (add_call Add_user_on_startup w, inl e).
Proof.
  rewrite add_user_on_startup_result.
  destruct (all_settings_present get_setting CONFIG) eqn:Hs; [|done].
  intros H. apply add_user_on_startup_no_model; [done|].
  by destruct get_user_model; simplify_eq.
Qed.

Lemma update_exchange_rates_result (w : World) :
  (update_exchange_rates importable tasks_update_exchange_rates currency_code_default w).2
  = if rates_importable importable then inr tt
    else inl (NameError "currency_code_default").
Proof.
  destruct (rates_importable importable) eqn:Hi.
  - rewrite update_exchange_rates_importable by done. cbv zeta.
    by repeat case_match.
  - by rewrite update_exchange_rates_unimportable.
Qed.

End frame_facts.

Section ready_facts.
Variable canAppAccessDatabase : bool.
Variable isInTestMode : bool.
Variable importable : string → bool.
Variable schedule_task :
  string → ScheduleType → option nat → list Schedule → list Schedule.
Variable tasks_update_exchange_rates :
  list ExchangeBackend → list ExchangeBackend * option exn.
Variable currency_code_default : string.
Variable get_setting : string → pyval → pyval.
Variable CONFIG : dict pyval.
Variable get_user_model : exn + UserModel.

(** The world [ready] has made when it reaches the test for test mode. *)
Lemma ready_eq (w : World) :
  ready canAppAccessDatabase isInTestMode importable schedule_task
    tasks_update_exchange_rates currency_code_default get_setting CONFIG get_user_model w
  = if canAppAccessDatabase then
      let w2 := (start_background_tasks importable schedule_task
                   (remove_obsolete_tasks importable (add_call Ready w)).1).1 in
      if isInTestMode then add_user_on_startup get_setting CONFIG get_user_model w2
      else match update_exchange_rates importable tasks_update_exchange_rates
                   currency_code_default w2 with
           | (w3, inr _) => add_user_on_startup get_setting CONFIG get_user_model w3
           | (w3, inl e) => (w3, inl e)
           end
    else (add_call Ready w, inr tt).
Proof.
  unfold ready. erewrite bind_ok by reflexivity.
  destruct canAppAccessDatabase; [|done].
  erewrite bind_ok by apply remove_obsolete_tasks_eq.
  erewrite bind_ok by apply start_background_tasks_eq.
  rewrite remove_obsolete_tasks_eq, start_background_tasks_eq. cbv zeta. simpl fst.
  destruct isInTestMode; simpl; [done|].
  unfold mbind, py_bind, bind. by repeat case_match.
Qed.

Lemma setup_schedules (w : World) :
  schedules (start_background_tasks importable schedule_task
               (remove_obsolete_tasks importable (add_call Ready w)).1).1
  = if importable "django_q.models"
    then background_tasks schedule_task (filter (λ s, func s ∉ obsolete) (schedules w))
    else schedules w.
Proof.
  rewrite remove_obsolete_tasks_eq, start_background_tasks_eq.
  by destruct (importable "django_q.models").
Qed.

Lemma setup_keeps_users_backends (w : World) :
  let w2 := (start_background_tasks importable schedule_task
               (remove_obsolete_tasks importable (add_call Ready w)).1).1 in
  users w2 = users w ∧ exchange_backends w2 = exchange_backends w ∧ stdout w2 = stdout w.
Proof.
  cbv zeta. rewrite remove_obsolete_tasks_eq, start_background_tasks_eq.
  by destruct (importable "django_q.models").
Qed.

End ready_facts.

(** ** Further properties of the startup hooks *)

(** X1. With its imports in place and the one [InvenTreeExchange] backend
    updated at some time, however long ago, in the default currency,
    [update_exchange_rates] returns without calling the task: no table and
    no log record changes. *)
Theorem update_exchange_rates_up_to_date (importable : string → bool)
    (tasks_update_exchange_rates : list ExchangeBackend → list ExchangeBackend * option exn)
    (currency_code_default : string) (w : World) (b : ExchangeBackend) :
  rates_importable importable = true →
  inventree_backends w = [b] →
  up_to_date currency_code_default b = true →
  update_exchange_rates importable tasks_update_exchange_rates currency_code_default w
  = (add_call Update_exchange_rates w, inr tt).
Proof.
  intros Hi Hb Hup. rewrite update_exchange_rates_importable by done.
  rewrite Hb, Hup. cbv zeta.
  apply andb_prop in Hup as [Hl%bool_decide_eq_true_1 Hc].
  by rewrite (decide_False _ _ Hl), Hc.
Qed.

Lemma update_exchange_rates_up_to_date_witness :
  update_exchange_rates (λ _, true) Samples.failing_task "USD"
    (Samples.world_with [Samples.other_backend; Samples.current_backend])
  = (add_call Update_exchange_rates
       (Samples.world_with [Samples.other_backend; Samples.current_backend]), inr tt).
Proof.
  apply (update_exchange_rates_up_to_date (λ _, true) Samples.failing_task "USD"
           (Samples.world_with [Samples.other_backend; Samples.current_backend])
           Samples.current_backend); reflexivity.
Defined.

(** X2. With its imports in place, when there is no [InvenTreeExchange]
    backend, or the one there is was never updated or has another base
    currency, [update_exchange_rates] calls the task: the backends are what
    the task left, and an exception of the task is logged as an error and not
    raised. *)
Theorem update_exchange_rates_runs_task (importable : string → bool)
    (tasks_update_exchange_rates : list ExchangeBackend → list ExchangeBackend * option exn)
    (currency_code_default : string) (w : World) :
  rates_importable importable = true →
  inventree_backends w = []
  ∨ (∃ b, inventree_backends w = [b] ∧ up_to_date currency_code_default b = false) →
  let run := update_exchange_rates importable tasks_update_exchange_rates
               currency_code_default w in
  run.2 = inr tt
  ∧ exchange_backends run.1 = (tasks_update_exchange_rates (exchange_backends w)).1
  ∧ ∀ e, (tasks_update_exchange_rates (exchange_backends w)).2 = Some e →
         ∃ records, log run.1
                    = records ++ [(ERROR, "Error updating exchange rates: " +:+ str_exn e)].
Proof.
  intros Hi Hcase run.
  assert (∃ w', run = (after_task tasks_update_exchange_rates w', inr tt)
                ∧ exchange_backends w' = exchange_backends w)
    as (w' & -> & Hw').
  { subst run. rewrite update_exchange_rates_importable by done. cbv zeta.
    destruct Hcase as [->|(b & -> & ->)].
    - eexists. split; reflexivity.
    - eexists. split; [reflexivity|]. by repeat case_match. }
  destruct (after_task_spec tasks_update_exchange_rates w') as [Hbs Hlog].
  rewrite Hw' in Hbs, Hlog. cbn [fst snd]. split_and!; [done | done |].
  intros e He. rewrite (Hlog e He). by eexists.
Qed.

Lemma update_exchange_rates_runs_task_witness :
  (update_exchange_rates (λ _, true) Samples.failing_task "USD"
     (Samples.world_with [Samples.fresh_backend])).2 = inr tt
  ∧ log (update_exchange_rates (λ _, true) Samples.failing_task "USD"
           (Samples.world_with [Samples.fresh_backend])).1
    = [(INFO, "Exchange backend has never been updated");
       (ERROR, "Error updating exchange rates: Connection refused")].
Proof.
  destruct (update_exchange_rates_runs_task (λ _, true) Samples.failing_task "USD"
              (Samples.world_with [Samples.fresh_backend]))
    as (Hret & _ & _); [reflexivity | |].
  - right. exists Samples.fresh_backend. split; reflexivity.
  - split; [exact Hret | reflexivity].
Defined.

(** X3. When one of its three imports raises [AppRegistryNotReady], which
    the method passes over, [update_exchange_rates] raises on the unbound
    name [currency_code_default]; the task is not called, and no table and no
    log record changes. *)
Theorem update_exchange_rates_unbound_name (importable : string → bool)
    (tasks_update_exchange_rates : list ExchangeBackend → list ExchangeBackend * option exn)
    (currency_code_default : string) (w : World) :
  rates_importable importable = false →
  let run := update_exchange_rates importable tasks_update_exchange_rates
               currency_code_default w in
  run.2 = inl (NameError "currency_code_default")
  ∧ exchange_backends run.1 = exchange_backends w
  ∧ log run.1 = log w ∧ users run.1 = users w ∧ schedules run.1 = schedules w.
Proof. intros Hi run. subst run. by rewrite update_exchange_rates_unimportable. Qed.

Lemma update_exchange_rates_unbound_name_witness :
  (update_exchange_rates (λ m, bool_decide (m = "InvenTree.tasks")) Samples.failing_task "USD"
     (Samples.world_with [Samples.fresh_backend])).2
  = inl (NameError "currency_code_default").
Proof.
  apply (update_exchange_rates_unbound_name (λ m, bool_decide (m = "InvenTree.tasks"))
           Samples.failing_task "USD" (Samples.world_with [Samples.fresh_backend])).
  reflexivity.
Defined.

(** X4. [update_exchange_rates] never changes the user table, the
    schedule table or standard output, and it raises exactly when one of its
    imports failed: no exception of the query or of the task leaves it. *)
Theorem update_exchange_rates_contained (importable : string → bool)
    (tasks_update_exchange_rates : list ExchangeBackend → list ExchangeBackend * option exn)
    (currency_code_default : string) (w : World) :
  let run := update_exchange_rates importable tasks_update_exchange_rates
               currency_code_default w in
  users run.1 = users w ∧ schedules run.1 = schedules w ∧ stdout run.1 = stdout w
  ∧ (run.2 = inr tt ↔ rates_importable importable = true)
  ∧ (rates_importable importable = false
     ↔ run.2 = inl (NameError "currency_code_default")).
Proof.
  intros run. subst run. split_and!.
  - apply update_exchange_rates_keeps_users.
  - apply update_exchange_rates_keeps_schedules.
  - apply update_exchange_rates_keeps_stdout.
  - rewrite update_exchange_rates_result. by destruct (rates_importable importable).
  - rewrite update_exchange_rates_result. by destruct (rates_importable importable).
Qed.

(** X5. With the three settings truthy, [add_user_on_startup] asks for the
    user model outside any [try]: an exception of [get_user_model] leaves the
    method, with no table, log record or output changed. With the model in
    hand it calls [create_user] once and returns: the user table is what the
    call left; a created user is announced in the log, and an exception of
    the call is printed, not logged and not raised. *)
Theorem add_user_on_startup_creates (get_setting : string → pyval → pyval)
    (CONFIG : dict pyval) (get_user_model : exn + UserModel) (w : World) :
  all_settings_present get_setting CONFIG = true →
  let run := add_user_on_startup get_setting CONFIG get_user_model w in
  match get_user_model with
  | inl e =>
      run.2 = inl e
      ∧ users run.1 = users w ∧ log run.1 = log w ∧ stdout run.1 = stdout w
  | inr user =>
      let created := objects_create_user user (set_user get_setting CONFIG)
                       (set_email get_setting CONFIG) (set_password get_setting CONFIG)
                       (users w) in
      run.2 = inr tt
      ∧ users run.1 = created.1
      ∧ match created.2 with
        | inr new_user =>
            log run.1
            = log w ++ [(INFO, "User " +:+ username new_user +:+ " was created!")]
            ∧ stdout run.1 = stdout w
        | inl e => log run.1 = log w ∧ stdout run.1 = stdout w ++ [str_exn e]
        end
  end.
Proof.
  intros Hs run. subst run. destruct get_user_model as [e|user] eqn:Hm.
  - by rewrite (add_user_on_startup_no_model _ _ (inl e) w e Hs eq_refl).
  - rewrite (add_user_on_startup_created _ _ (inr user) w user Hs eq_refl). cbv zeta.
    by destruct (objects_create_user user _ _ _ (users w)) as [us [e|new_user]].
Qed.

Lemma add_user_on_startup_creates_witness :
  log (add_user_on_startup Examples.get_setting Examples.full_CONFIG
         (inr Samples.user_model) Examples.world).1 = [(INFO, "User admin was created!")]
  ∧ stdout (add_user_on_startup Examples.get_setting Examples.full_CONFIG
              (inr Samples.failing_user_model) Examples.world).1
    = ["UNIQUE constraint failed: auth_user.username"]
  ∧ (add_user_on_startup Examples.get_setting Examples.full_CONFIG
       (inl Samples.models_not_loaded) Examples.world).2
    = inl Samples.models_not_loaded.
Proof.
  destruct (add_user_on_startup_creates Examples.get_setting Examples.full_CONFIG
              (inr Samples.user_model) Examples.world) as (_ & _ & Hlog & _);
    [reflexivity|].
  destruct (add_user_on_startup_creates Examples.get_setting Examples.full_CONFIG
              (inr Samples.failing_user_model) Examples.world) as (_ & _ & _ & Hout);
    [reflexivity|].
  destruct (add_user_on_startup_creates Examples.get_setting Examples.full_CONFIG
              (inl Samples.models_not_loaded) Examples.world) as (Hraise & _);
    [reflexivity|].
  split_and!; [exact Hlog | exact Hout | exact Hraise].
Defined.

(** X6. [add_user_on_startup] never changes the schedule table or the
    exchange backends, and the one exception that can leave it is that of
    [get_user_model]: it raises exactly when the three settings are truthy
    and that call raises; whatever [create_user] raises is caught. *)
Theorem add_user_on_startup_contained (get_setting : string → pyval → pyval)
    (CONFIG : dict pyval) (get_user_model : exn + UserModel) (w : World) :
  let run := add_user_on_startup get_setting CONFIG get_user_model w in
  schedules run.1 = schedules w
  ∧ exchange_backends run.1 = exchange_backends w
  ∧ (∀ e, run.2 = inl e
          ↔ all_settings_present get_setting CONFIG = true ∧ get_user_model = inl e)
  ∧ (run.2 = inr tt
     ↔ all_settings_present get_setting CONFIG = false ∨ ∃ user, get_user_model = inr user).
Proof.
  intros run. subst run. split_and!.
  - apply add_user_on_startup_keeps_schedules.
  - apply add_user_on_startup_keeps_backends.
  - intros e. rewrite add_user_on_startup_result.
    destruct (all_settings_present get_setting CONFIG), get_user_model;
      intuition congruence.
  - rewrite add_user_on_startup_result.
    destruct (all_settings_present get_setting CONFIG), get_user_model as [e|user];
      split; try done; eauto.
    intros [?|[? ?]]; congruence.
Qed.

(** X7. Running [remove_obsolete_tasks] a second time deletes nothing
    more, and once the models of django_q can be imported no task with an
    obsolete function is left after it. *)
Theorem remove_obsolete_tasks_idempotent (importable : string → bool) (w : World) :
  let once := (remove_obsolete_tasks importable w).1 in
  schedules (remove_obsolete_tasks importable once).1 = schedules once
  ∧ (importable "django_q.models" = true →
     ∀ s, s ∈ schedules once → func s ∉ obsolete).
Proof.
  intros once. subst once. rewrite !remove_obsolete_tasks_eq.
  destruct (importable "django_q.models"); simpl; split; try done.
  - apply list_filter_filter_l. tauto.
  - intros _ s [Hs _]%list_elem_of_filter. done.
Qed.

(** X9. [ready] raises in two cases only. With the database accessible
    and the process not in test mode, a failed import of
    [update_exchange_rates] stops it on the unbound name, before
    [add_user_on_startup]. Otherwise, with the database accessible and the
    three settings truthy, it raises what [get_user_model] raises, in test
    mode too. In both cases no user has been created and nothing printed; in
    every other case it returns. *)
Theorem ready_outcome (canAppAccessDatabase isInTestMode : bool)
    (importable : string → bool)
    (schedule_task : string → ScheduleType → option nat → list Schedule → list Schedule)
    (tasks_update_exchange_rates : list ExchangeBackend → list ExchangeBackend * option exn)
    (currency_code_default : string)
    (get_setting : string → pyval → pyval) (CONFIG : dict pyval)
    (get_user_model : exn + UserModel)
    (w : World) :
  let run := ready canAppAccessDatabase isInTestMode importable schedule_task
               tasks_update_exchange_rates currency_code_default
               get_setting CONFIG get_user_model w in
  let aborts := canAppAccessDatabase && negb isInTestMode
                && negb (rates_importable importable) in
  run.2 = (if aborts then inl (NameError "currency_code_default")
           else if canAppAccessDatabase && all_settings_present get_setting CONFIG
                then match get_user_model with inl e => inl e | inr _ => inr tt end
                else inr tt)
  ∧ (run.2 ≠ inr tt → users run.1 = users w ∧ stdout run.1 = stdout w).
Proof.
  intros run aborts. subst run aborts. rewrite ready_eq.
  destruct canAppAccessDatabase; [|done]. cbv zeta.
  destruct (setup_keeps_users_backends importable schedule_task w) as (Hu & _ & Ho).
  cbv zeta in Hu, Ho.
  set (w2 := (start_background_tasks _ _ _).1) in *.
  assert (Hadd : ∀ w', users w' = users w → stdout w' = stdout w →
            let r := add_user_on_startup get_setting CONFIG get_user_model w' in
            r.2 = (if all_settings_present get_setting CONFIG
                   then match get_user_model with inl e => inl e | inr _ => inr tt end
                   else inr tt)
            ∧ (r.2 ≠ inr tt → users r.1 = users w ∧ stdout r.1 = stdout w)).
  { intros w' Hu' Ho'. cbv zeta. split; [apply add_user_on_startup_result|].
    destruct (add_user_on_startup _ _ _ w') as [w'' [e|[]]] eqn:Hrun; [|done].
    intros _. rewrite (add_user_on_startup_keeps_users_on_raise _ _ _ w' e) in Hrun
      by (by rewrite Hrun).
    by simplify_eq/=. }
  destruct isInTestMode; simpl; [by apply Hadd|].
  pose proof (update_exchange_rates_result importable tasks_update_exchange_rates
                currency_code_default w2) as Hres.
  pose proof (update_exchange_rates_keeps_users importable tasks_update_exchange_rates
                currency_code_default w2) as Hku.
  pose proof (update_exchange_rates_keeps_stdout importable tasks_update_exchange_rates
                currency_code_default w2) as Hko.
  destruct (update_exchange_rates _ _ _ w2) as [w3 [e|[]]]; simpl in *;
    destruct (rates_importable importable); simplify_eq/=.
  - split; [done|]. intros _. by rewrite Hku, Hko.
  - apply Hadd; congruence.
Qed.

(** X10. Without access to the database [ready] changes nothing. It never
    changes the exchange backends when the database is inaccessible or the
    process is in test mode. What it leaves in the schedule table does not
    depend on test mode, on the settings or on the exchange rates: with the
    database accessible and the models of django_q importable, it is the
    table less the obsolete tasks, passed through the six calls of
    [schedule_task]; otherwise the table as it was. *)
Theorem ready_frame (canAppAccessDatabase isInTestMode : bool)
    (importable : string → bool)
    (schedule_task : string → ScheduleType → option nat → list Schedule → list Schedule)
    (tasks_update_exchange_rates : list ExchangeBackend → list ExchangeBackend * option exn)
    (currency_code_default : string)
    (get_setting : string → pyval → pyval) (CONFIG : dict pyval)
    (get_user_model : exn + UserModel)
    (w : World) :
  let run := ready canAppAccessDatabase isInTestMode importable schedule_task
               tasks_update_exchange_rates currency_code_default
               get_setting CONFIG get_user_model w in
  (canAppAccessDatabase = false → run = (add_call Ready w, inr tt))
  ∧ (canAppAccessDatabase = false ∨ isInTestMode = true →
     exchange_backends run.1 = exchange_backends w)
  ∧ schedules run.1
    = (if canAppAccessDatabase && importable "django_q.models"
       then background_tasks schedule_task (filter (λ s, func s ∉ obsolete) (schedules w))
       else schedules w).
Proof.
  intros run. subst run. rewrite ready_eq.
  destruct canAppAccessDatabase; [|done]. cbv zeta.
  destruct (setup_keeps_users_backends importable schedule_task w) as (_ & Hb & _).
  pose proof (setup_schedules importable schedule_task w) as Hs.
  cbv zeta in Hb.
  set (w2 := (start_background_tasks _ _ _).1) in *.
  split_and!; [done | |].
  - intros [?| ->]; [done|].
    by rewrite add_user_on_startup_keeps_backends.
  - rewrite andb_true_l, <- Hs. destruct isInTestMode.
    + apply add_user_on_startup_keeps_schedules.
    + pose proof (update_exchange_rates_keeps_schedules importable
                    tasks_update_exchange_rates currency_code_default w2) as Hk.
      destruct (update_exchange_rates _ _ _ w2) as [w3 [e|[]]]; simpl in *; [done|].
      by rewrite add_user_on_startup_keeps_schedules.
Qed.

(** ** Further properties of the consistency tests *)

Lemma report_nil (heading : string) (l : list string) : report heading l = [] ↔ l = [].
Proof. by destruct l. Qed.

Lemma app_eq_self {A} (l k : list A) : l ++ k = l ↔ k = [].
Proof.
  split; [|intros ->; apply app_nil_r].
  intros H. apply (app_inv_head l). by rewrite app_nil_r.
Qed.

(** X11. [test_ruleset_models] prints nothing exactly when it passes. What
    it prints, before its first assertion raises, is the three reports in
    turn: for each of [missing], [extra] and [empty] that is not empty, its
    heading followed by one [- name] line for each of its names; and a
    failing run has at least one of the three to report. *)
Theorem test_ruleset_models_silent_iff_passes (names : list string)
    (registry : dict (list string)) (out : list string) :
  let run := test_ruleset_models names registry out in
  (run.1 = out ↔ passes run)
  ∧ ∃ e printed,
      empty registry out = (out, inr e)
      ∧ run.1 = out ++ printed
      ∧ printed = report missing_heading (missing names registry)
                  ++ report extra_heading (extra names registry)
                  ++ report empty_heading e
      ∧ (∀ m, m ∈ missing names registry →
              missing_heading ∈ printed ∧ "- " +:+ m ∈ printed)
      ∧ (∀ m, m ∈ extra names registry →
              extra_heading ∈ printed ∧ "- " +:+ m ∈ printed)
      ∧ (∀ m, m ∈ e → empty_heading ∈ printed ∧ "- " +:+ m ∈ printed)
      ∧ (fails run →
         missing names registry ≠ [] ∨ extra names registry ≠ [] ∨ e ≠ []).
Proof.
  intros run. subst run. unfold passes, fails. rewrite test_ruleset_models_eq. simpl.
  assert (Hnil : ruleset_report names registry = []
                 ↔ ruleset_verdict names registry = inr tt).
  { rewrite ruleset_verdict_ok. unfold ruleset_report.
    split.
    - intros (H1%report_nil & (H2%report_nil & H3%report_nil)%app_eq_nil)%app_eq_nil. done.
    - intros (-> & -> & ->). done. }
  split; [by rewrite app_eq_self|].
  exists (empty_groups registry), (ruleset_report names registry).
  split_and!; [apply empty_total | done | done | | | |].
  - intros m [Hh Hm]%(elem_of_report missing_heading). unfold ruleset_report.
    rewrite !elem_of_app. tauto.
  - intros m [Hh Hm]%(elem_of_report extra_heading). unfold ruleset_report.
    rewrite !elem_of_app. tauto.
  - intros m [Hh Hm]%(elem_of_report empty_heading). unfold ruleset_report.
    rewrite !elem_of_app. tauto.
  - intros [msg Hmsg].
    destruct (decide (missing names registry = [])) as [Hm|]; [|tauto].
    destruct (decide (extra names registry = [])) as [He|]; [|tauto].
    destruct (decide (empty_groups registry = [])) as [Hg|]; [|tauto].
    rewrite (proj2 (ruleset_verdict_ok names registry)) in Hmsg by done. discriminate.
Qed.

(** X12. A failing [test_model_names] has printed one line for each invalid
    reference and no warning; and the test prints nothing exactly when no
    reference is invalid and no live table is uncovered. *)
Theorem test_model_names_output (registry : dict (list string))
    (available_models : list Model) (out : list string) :
  let run := test_model_names registry available_models out in
  let live := available_tables available_models in
  (fails run → run.1 = out ++ (invalid_line <$> invalidRefs live registry)
               ∧ invalidRefs live registry ≠ [])
  ∧ (run.1 = out ↔ invalidRefs live registry = [] ∧ uncovered live registry = []).
Proof.
  intros run live. subst run live. unfold fails.
  rewrite test_model_names_eq, available_tables_eq. simpl.
  unfold model_names_report, model_names_verdict.
  case_decide as Hinv.
  - split; [by intros [? ?]|]. rewrite app_eq_self, report_nil. tauto.
  - split; [done|]. rewrite app_eq_self. split; [|tauto].
    intros Hnil. by destruct (invalidRefs _ registry).
Qed.

Lemma length_filter_bind {A B} (P : B → Prop) `{∀ x, Decision (P x)}
    (f : A → list B) (l : list A) :
  length (filter P (l ≫= f)) = sum_list ((λ x, length (filter P (f x))) <$> l).
Proof.
  induction l as [|x l IH]; csimpl; [done|].
  by rewrite filter_app, length_app, IH.
Qed.

(** X13. The loop of [test_model_names] never raises; it counts one error
    for each line it prints, that is one for every occurrence of a dangling
    resource in a group's list, so a resource listed twice, in one group or
    in two, counts twice; and it collects in [assigned_models] every declared
    resource, group after group. *)
Theorem check_models_counts (registry : dict (list string)) (tables out : list string) :
  ∃ printed errors assigned_models,
    check_models registry tables out = (out ++ printed, inr (errors, assigned_models))
    ∧ errors = length printed
    ∧ errors = length (filter (λ r, r ∉ tables) assigned_models)
    ∧ errors = sum_list ((λ key, length (filter (λ r, r ∉ tables) (get registry key [])))
                           <$> keys registry)
    ∧ assigned_models = (key ← keys registry; get registry key [])
    ∧ (errors ≤ length assigned_models)%nat.
Proof.
  eexists _, _, _. split; [apply check_models_eq|].
  unfold invalidRefs, declared_resources. split_and!.
  - by rewrite length_fmap.
  - done.
  - apply length_filter_bind.
  - done.
  - apply length_filter.
Qed.

(** X14. Whether [test_ruleset_models] passes depends on the canonical
    names as a set only: their order and repetitions do not matter. *)
Theorem test_ruleset_models_names_as_set (names names' : list string)
    (registry : dict (list string)) (out out' : list string) :
  list_to_set names =@{gset string} list_to_set names' →
  passes (test_ruleset_models names registry out)
  ↔ passes (test_ruleset_models names' registry out').
Proof.
  intros Hset. unfold passes. rewrite !test_ruleset_models_eq. simpl.
  rewrite !ruleset_verdict_ok.
  pose proof (missing_extra_nil names registry) as H1.
  pose proof (missing_extra_nil names' registry) as H2.
  rewrite Hset in H1. tauto.
Qed.

Lemma test_ruleset_models_names_as_set_witness :
  passes (test_ruleset_models ["part"; "stock"] Examples.sound_registry [])
  ↔ passes (test_ruleset_models ["stock"; "part"; "stock"] Examples.sound_registry
              ["earlier output"]).
Proof.
  apply (test_ruleset_models_names_as_set ["part"; "stock"] ["stock"; "part"; "stock"]).
  apply set_eq. intros g. rewrite !elem_of_list_to_set, !elem_of_cons, !elem_of_nil. tauto.
Defined.
